(** * startduckai: message model, reply parsing and response dispatch

    A shallow embedding of [startduckai.py].  Python values that cross the
    JSON boundary are a small inductive type, dictionaries are finite maps
    with string keys, exceptions are an error monad, instances are a class
    tag with an instance dictionary, and the single HTTP POST of
    [send_messages] is a step of a state monad that logs every request
    handed to the transport.

    Parameter annotations such as [str[MessageType]] are not part of the
    embedding: the module loads where annotations are evaluated lazily,
    and the code modelled here never evaluates them. *)

From stdpp Require Import gmap strings list fin_maps.
From Stdlib Require Import ZArith QArith Ascii.

Local Open Scope string_scope.
Local Open Scope Z_scope.
Set Warnings "-register-all".

(** ** Python values *)

(** The values the module handles: what [json] decoding produces and what
    callers pass as identifiers, texts and metadata.  A [dict] is a finite
    map: decoded JSON objects have string keys, no duplicates, and are
    compared regardless of order. *)
Inductive pyval : Type :=
  | PNone
  | PBool (b : bool)
  | PInt (z : Z)
  | PStr (s : string)
  | PList (l : list pyval)
  | PDict (d : gmap string pyval).

(** The name Python prints for the type of a value. *)
Definition type_name (v : pyval) : string :=
  match v with
  | PNone => "NoneType"
  | PBool _ => "bool"
  | PInt _ => "int"
  | PStr _ => "str"
  | PList _ => "list"
  | PDict _ => "dict"
  end.

(** ** Exceptions *)

(** The fifteen exception classes the module declares (lines 336-379), then
    the built-in and library exceptions its expressions can raise. *)
Inductive exc_class : Type :=
  | InvalidMimeType
  | TooManyAttemptsReturnError
  | MessageInQueue
  | NoReply
  | InProcess
  | MessageSizeLimit
  | ChatBotNotActive
  | ChatBotNotFound
  | ChatBotNotTrained
  | BadRequest
  | BadResponse
  | AccessDenied
  | RPDLimitReached
  | SpamBlock
  | UnknownError
  | KeyError
  | TypeError
  | IndexError
  | AttributeError
  | JSONDecodeError.

Global Instance exc_class_eq_dec : EqDecision exc_class.
Proof. solve_decision. Defined.

(** The classes declared by the module itself. *)
Definition declared_by_module (c : exc_class) : bool :=
  match c with
  | KeyError | TypeError | IndexError | AttributeError | JSONDecodeError => false
  | _ => true
  end.

(** A raised exception: its class and its first argument. *)
Record exn : Type := Exc { exc_cls : exc_class; exc_arg : pyval }.

Inductive result (A : Type) : Type :=
  | Returns (a : A)
  | Raises (e : exn).
Global Arguments Returns {A} a.
Global Arguments Raises {A} e.

Global Instance result_ret : MRet result := fun _ a => Returns a.
Global Instance result_bind : MBind result := fun _ _ f m =>
  match m with
  | Returns a => f a
  | Raises e => Raises e
  end.

(** ** Built-in operations *)

(** [str.lower] and the conversion an f-string field applies are the
    interpreter's; the module's code is generic in them. *)
Class Builtins : Type := {
  str_lower : string → string;
  py_str : pyval → string
}.

(** An f-string field holding a string shows that string. *)
Definition str_of_str `{Builtins} : Prop := ∀ s : string, py_str (PStr s) = s.

(** [v == 'literal']: a string equals only the same string. *)
Definition py_eq_str (v : pyval) (lit : string) : bool :=
  match v with
  | PStr s => bool_decide (s = lit)
  | _ => false
  end.

(** A subscript as the module writes them: a string key or an integer
    index. *)
Inductive subscript : Type :=
  | Key (key : string)
  | Index (i : Z).

(** Python's index normalisation: a negative index counts from the end. *)
Definition norm_index (len i : Z) : option nat :=
  let j := if i <? 0 then i + len else i in
  if (0 <=? j) && (j <? len) then Some (Z.to_nat j) else None.

(** [v[k]].  A decoded JSON object has string keys only; strings are
    indexed by byte, which is by character for ASCII text. *)
Definition py_getitem (v : pyval) (k : subscript) : result pyval :=
  match v, k with
  | PDict d, Key key =>
      match d !! key with
      | Some x => Returns x
      | None => Raises (Exc KeyError (PStr key))
      end
  | PDict d, Index i => Raises (Exc KeyError (PInt i))
  | PList l, Index i =>
      match norm_index (Z.of_nat (length l)) i ≫= (l !!.) with
      | Some x => Returns x
      | None => Raises (Exc IndexError (PStr "list index out of range"))
      end
  | PList l, Key _ =>
      Raises (Exc TypeError (PStr "list indices must be integers or slices, not str"))
  | PStr s, Index i =>
      match norm_index (Z.of_nat (String.length s)) i ≫= (λ n, String.get n s) with
      | Some a => Returns (PStr (String a EmptyString))
      | None => Raises (Exc IndexError (PStr "string index out of range"))
      end
  | PStr s, Key _ =>
      Raises (Exc TypeError (PStr "string indices must be integers, not 'str'"))
  | _, _ =>
      Raises (Exc TypeError (PStr ("'" +:+ type_name v +:+ "' object is not subscriptable")))
  end.

(** [d.get(key, default)]; only a [dict] has the method. *)
Definition py_get (v : pyval) (key : string) (dflt : pyval) : result pyval :=
  match v with
  | PDict d => Returns (default dflt (d !! key))
  | _ =>
      Raises (Exc AttributeError
        (PStr ("'" +:+ type_name v +:+ "' object has no attribute 'get'")))
  end.

(** [mime.lower()]: only a [str] has the method. *)
Definition py_lower `{Builtins} (v : pyval) : result string :=
  match v with
  | PStr s => Returns (str_lower s)
  | _ =>
      Raises (Exc AttributeError
        (PStr ("'" +:+ type_name v +:+ "' object has no attribute 'lower'")))
  end.

Fixpoint is_substring (needle hay : string) : bool :=
  String.prefix needle hay ||
  match hay with
  | EmptyString => false
  | String _ rest => is_substring needle rest
  end.

(** [s in container] for a string [s]: membership in a list, substring of
    a string, key of a dict. *)
Definition py_in_str (s : string) (container : pyval) : result bool :=
  match container with
  | PList l => Returns (existsb (λ v, py_eq_str v s) l)
  | PStr t => Returns (is_substring s t)
  | PDict d => Returns (bool_decide (is_Some (d !! s)))
  | _ =>
      Raises (Exc TypeError
        (PStr ("argument of type '" +:+ type_name container +:+
               "' is not a container or iterable")))
  end.

(** ** Constants (lines 4-25) *)

Definition VERSION : string := "0.1".
Definition DEFAULT_API_URL : string := "https://bigduck.ai".
Definition DEFAULT_API_TIMEOUT : Q := 240%Q.

Module MessageType.
Definition TEXT : string := "text".
Definition VOICE : string := "voice".
Definition IMAGE : string := "image".
Definition STICKER : string := "sticker".
Definition AUDIO : string := "audio".
Definition VIDEO : string := "video".
Definition DOCUMENT : string := "document".
End MessageType.

Module MessageRole.
Definition USER : string := "user".
Definition ASSISTANT : string := "assistant".
End MessageRole.

(** The table from mimetype to file extensions (lines 26-49). *)
Definition MIME_TYPES : gmap string (list string) :=
  list_to_map [
    ("image/bmp", [".bmp"]);
    ("image/png", [".png"]);
    ("image/jpeg", [".jpg"; ".jpeg"]);
    ("image/gif", [".gif"]);
    ("image/webp", [".webp"]);
    ("sticker/lottie", []);
    ("video/mp4", [".mp4"]);
    ("video/webm", [".webm"]);
    ("audio/wav", [".wav"]);
    ("audio/mpeg", [".mp3"]);
    ("audio/mp4", [".m4a"; ".mp4"]);
    ("audio/ogg", [".ogg"]);
    ("text/plain", [".txt"]);
    ("application/pdf", [".pdf"]);
    ("application/msword", [".doc"]);
    ("application/mswordx", [".docx"]);
    ("application/ppt", [".ppt"]);
    ("application/pptx", [".pptx"])
  ].

(** ** Stored message (lines 55-71) *)

Module StoredMessage.
Record t : Type := __init__ {
  role : pyval;
  text : pyval
}.

Definition serialize (self : t) : pyval :=
  PDict {[ "role" := role self; "text" := text self ]}.

Definition deserialize (packed : pyval) : result t :=
  role ← py_getitem packed (Key "role");
  text ← py_getitem packed (Key "text");
  Returns (__init__ role text).
End StoredMessage.

(** ** Classes and instances *)

(** The message classes (lines 73-127). *)
Inductive class : Type :=
  | MessageBase
  | TextMessage
  | VoiceMessage
  | ImageMessage
  | StickerMessage
  | AudioMessage
  | VideoMessage
  | DocumentMessage.

Global Instance class_eq_dec : EqDecision class.
Proof. solve_decision. Defined.

Definition class_name (c : class) : string :=
  match c with
  | MessageBase => "MessageBase"
  | TextMessage => "TextMessage"
  | VoiceMessage => "VoiceMessage"
  | ImageMessage => "ImageMessage"
  | StickerMessage => "StickerMessage"
  | AudioMessage => "AudioMessage"
  | VideoMessage => "VideoMessage"
  | DocumentMessage => "DocumentMessage"
  end.

(** The data attributes each class body assigns: [type] and [mime], and
    nothing else.  (The methods [__init__] and [serialize] are class
    attributes too; the module never reads them as data.) *)
Definition class_dict (c : class) : gmap string pyval :=
  match c with
  | MessageBase =>
      {[ "type" := PNone; "mime" := PList [] ]}
  | TextMessage =>
      {[ "type" := PStr MessageType.TEXT;
         "mime" := PList [PStr "text/plain"] ]}
  | VoiceMessage =>
      {[ "type" := PStr MessageType.VOICE;
         "mime" := PList [PStr "audio/wav"; PStr "audio/mpeg"; PStr "audio/mp4";
                          PStr "audio/ogg"] ]}
  | ImageMessage =>
      {[ "type" := PStr MessageType.IMAGE;
         "mime" := PList [PStr "image/bmp"; PStr "image/png"; PStr "image/jpeg";
                          PStr "image/gif"; PStr "image/webp"] ]}
  | StickerMessage =>
      {[ "type" := PStr MessageType.STICKER;
         "mime" := PList [PStr "image/bmp"; PStr "image/png"; PStr "image/jpeg";
                          PStr "image/gif"; PStr "image/webp"; PStr "sticker/lottie"] ]}
  | AudioMessage =>
      {[ "type" := PStr MessageType.AUDIO;
         "mime" := PList [PStr "audio/wav"; PStr "audio/mpeg"; PStr "audio/mp4";
                          PStr "audio/ogg"] ]}
  | VideoMessage =>
      {[ "type" := PStr MessageType.VIDEO;
         "mime" := PList [PStr "video/mp4"; PStr "video/webm"] ]}
  | DocumentMessage =>
      {[ "type" := PStr MessageType.DOCUMENT;
         "mime" := PList [PStr "text/plain"; PStr "application/pdf";
                          PStr "application/msword"; PStr "application/mswordx";
                          PStr "application/ppt"; PStr "application/pptx"] ]}
  end.

(** Method resolution order: the class, then its base. *)
Definition mro (c : class) : list class :=
  match c with
  | MessageBase => [MessageBase]
  | _ => [c; MessageBase]
  end.

Fixpoint class_lookup (cs : list class) (name : string) : option pyval :=
  match cs with
  | [] => None
  | c :: rest =>
      match class_dict c !! name with
      | Some v => Some v
      | None => class_lookup rest name
      end
  end.

(** An instance: its class and its own attribute dictionary. *)
Record object : Type := Object { ob_class : class; ob_dict : gmap string pyval }.

(** [self.name]: the instance dictionary first, then the classes of the
    resolution order; a name found nowhere is an [AttributeError]. *)
Definition getattr (self : object) (name : string) : result pyval :=
  match ob_dict self !! name with
  | Some v => Returns v
  | None =>
      match class_lookup (mro (ob_class self)) name with
      | Some v => Returns v
      | None =>
          Raises (Exc AttributeError
            (PStr ("'" +:+ class_name (ob_class self) +:+
                   "' object has no attribute '" +:+ name +:+ "'")))
      end
  end.

(** [self.name = v]. *)
Definition setattr (self : object) (name : string) (v : pyval) : object :=
  Object (ob_class self) (<[name := v]> (ob_dict self)).

(** ** Message structs (lines 73-127) *)

Module MessageBase.
Definition __init__ `{Builtins} (self : object) (data mime : pyval) : result object :=
  let self := setattr self "data" data in
  let self := setattr self "mime" mime in
  lowered ← py_lower mime;
  mimetypes ← getattr self "mimetypes";
  found ← py_in_str lowered mimetypes;
  if negb found
  then Raises (Exc InvalidMimeType (PStr "Bad message content mimetype."))
  else Returns self.

Definition serialize (self : object) : result pyval :=
  type ← getattr self "type";
  mime ← getattr self "mime";
  data ← getattr self "data";
  Returns (PDict {[ "type" := type; "mime" := mime; "data" := data ]}).
End MessageBase.

Module TextMessage.
Definition __init__ `{Builtins} (self : object) (text : pyval) : result object :=
  mime ← getattr self "mime";
  mime0 ← py_getitem mime (Index 0);
  MessageBase.__init__ self text mime0.
End TextMessage.

(** [Class(data, mime)]: a fresh instance handed to the [__init__] the
    class resolves to; the caller gets the instance only when [__init__]
    returns.  [TextMessage] overrides [__init__] with a one-argument one. *)
Definition new `{Builtins} (c : class) (data mime : pyval) : result object :=
  match c with
  | TextMessage =>
      Raises (Exc TypeError
        (PStr "TextMessage.__init__() takes 2 positional arguments but 3 were given"))
  | _ => MessageBase.__init__ (Object c ∅) data mime
  end.

(** [TextMessage(text)]. *)
Definition new_text `{Builtins} (text : pyval) : result object :=
  TextMessage.__init__ (Object TextMessage ∅) text.

(** ** Reply struct (lines 133-159) *)

Module ReplyMessage.
Record t : Type := __init__ {
  text : pyval;
  text_markdown : pyval;
  text_markdown_v2 : pyval;
  chatbot_uuid : pyval;
  client_id : pyval;
  metadata : pyval
}.

Definition deserialize (packed : pyval) : result t :=
  answer1 ← py_getitem packed (Key "answer");
  text ← py_getitem answer1 (Key "text");
  answer2 ← py_getitem packed (Key "answer");
  fbmd ← py_getitem answer2 (Key "fbmd");
  answer3 ← py_getitem packed (Key "answer");
  mdv2 ← py_getitem answer3 (Key "mdv2");
  chatbot_uuid ← py_getitem packed (Key "chatbot_uuid");
  client_id ← py_getitem packed (Key "client_id");
  metadata ← py_get packed "metadata" PNone;
  Returns (__init__ text fbmd mdv2 chatbot_uuid client_id metadata).
End ReplyMessage.

(** ** The transport *)

(** What one POST hands to the HTTP library, and what comes back: the
    status, and what [resp.json()] does with the body (the decoded value,
    or the decoder's exception when the body is not JSON). *)
Record request : Type := Request {
  req_url : string;
  req_timeout : Q;
  req_json : pyval
}.

Record response : Type := Response {
  status_code : Z;
  json : result pyval
}.

Definition transport : Type := request → response.

(** A call runs against a server and a log of the requests posted so far;
    it ends by returning or raising, with the log extended by the requests
    it posted. *)
Definition io (A : Type) : Type := transport → list request → result A * list request.

Global Instance io_ret : MRet io := λ _ a _ log, (Returns a, log).
Global Instance io_bind : MBind io := λ _ _ f m srv log,
  match m srv log with
  | (Returns a, log') => f a srv log'
  | (Raises e, log') => (Raises e, log')
  end.

Definition raise {A : Type} (e : exn) : io A := λ _ log, (Raises e, log).

Definition lift {A : Type} (r : result A) : io A := λ _ log, (r, log).

Definition post (req : request) : io response := λ srv log, (Returns (srv req), (log ++ [req])%list).

(** ** Sync API (lines 165-284) *)

Module SyncAPI.
Record t : Type := __init__ {
  api_key : pyval;
  chatbot_uuid : pyval;
  webhook : pyval;
  api_url : string;
  timeout : Q
}.

Definition _check_for_errors `{Builtins} (answer : pyval) : result unit :=
  status ← py_getitem answer (Key "status");
  if py_eq_str status "success" then
    Returns ()
  else if py_eq_str status "error" then
    error ← py_getitem answer (Key "error");
    if py_eq_str error "no_reply" then
      message ← py_getitem answer (Key "message");
      Raises (Exc NoReply message)
    else if py_eq_str error "in_process" then
      message ← py_getitem answer (Key "message");
      Raises (Exc InProcess message)
    else if py_eq_str error "chatbot_not_active" then
      message ← py_getitem answer (Key "message");
      Raises (Exc ChatBotNotActive message)
    else if py_eq_str error "chatbot_not_found" then
      message ← py_getitem answer (Key "message");
      Raises (Exc ChatBotNotFound message)
    else if py_eq_str error "chatbot_not_trained" then
      message ← py_getitem answer (Key "message");
      Raises (Exc ChatBotNotTrained message)
    else if py_eq_str error "bad_request" then
      message ← py_getitem answer (Key "message");
      Raises (Exc BadRequest
        (PStr ("Perhaps the `startduckai` package is outdated. Error message: "
               +:+ py_str message)))
    else if py_eq_str error "access_denied" then
      message ← py_getitem answer (Key "message");
      Raises (Exc AccessDenied message)
    else if py_eq_str error "rpd_limit_reached" then
      message ← py_getitem answer (Key "message");
      Raises (Exc RPDLimitReached message)
    else if py_eq_str error "spam_block" then
      message ← py_getitem answer (Key "message");
      Raises (Exc SpamBlock message)
    else
      Raises (Exc UnknownError (PStr "The API returned an unexpected status code."))
  else
    Raises (Exc UnknownError (PStr "The API returned an unexpected status code.")).

Definition send_messages `{Builtins} (self : t) (client_id : pyval)
    (messages : list object) (metadata : pyval) (via_crm : bool) : io unit :=
  if bool_decide (length messages = 0%nat) then
    raise (Exc BadRequest (PStr "List of messages must contain at least one message!"))
  else
    serialized ← lift (mapM MessageBase.serialize messages);
    resp ← post {|
      req_url := api_url self +:+ "/integrations" +:+
                 (if via_crm then "/crm" else "") +:+ "/webhook";
      req_timeout := timeout self;
      req_json := PDict {[
        "api_key" := api_key self;
        "chatbot_uuid" := chatbot_uuid self;
        "client_id" := client_id;
        "messages" := PList serialized;
        "webhook" := webhook self;
        "metadata" := match metadata with PNone => PDict ∅ | _ => metadata end
      ]}
    |};
    if bool_decide (status_code resp ≠ 200) then
      raise (Exc UnknownError (PStr "The API returned an unexpected status code."))
    else
      answer ← lift (json resp);
      lift (_check_for_errors answer).

Definition parse_reply (response_json : pyval) : result ReplyMessage.t :=
  match ReplyMessage.deserialize response_json with
  | Returns reply => Returns reply
  | Raises e =>
      if bool_decide (exc_cls e = KeyError)
      then Raises (Exc BadResponse (PStr
             "The API returned an unexpected response. Perhaps the `startduckai` package is outdated."))
      else Raises e
  end.

(** [__enter__] and [__exit__] (lines 268-272); [exc_val] is [None] when
    the block ended without an exception. *)
Definition __enter__ (self : t) : t := self.

Definition __exit__ (self : t) (exc_type : option exc_class) (exc_val : option exn)
    (exc_tb : option unit) : bool :=
  match exc_val with
  | None => true
  | Some _ => false
  end.
End SyncAPI.

(** ** Async API (lines 291-329) *)

(** [AsyncAPI] inherits the configuration, [_check_for_errors] and
    [parse_reply] of [SyncAPI] and overrides [send_messages]; an awaited
    call is run to completion. *)
Module AsyncAPI.
Definition send_messages `{Builtins} (self : SyncAPI.t) (client_id : pyval)
    (messages : list object) (metadata : pyval) (via_crm : bool) : io unit :=
  serialized ← lift (mapM MessageBase.serialize messages);
  resp ← post {|
    req_url := SyncAPI.api_url self +:+ "/integrations" +:+
               (if via_crm then "/crm" else "") +:+ "/webhook";
    req_timeout := SyncAPI.timeout self;
    req_json := PDict {[
      "api_key" := SyncAPI.api_key self;
      "chatbot_uuid" := SyncAPI.chatbot_uuid self;
      "client_id" := client_id;
      "messages" := PList serialized;
      "webhook" := SyncAPI.webhook self;
      "metadata" := match metadata with PNone => PDict ∅ | _ => metadata end
    ]}
  |};
  if bool_decide (status_code resp ≠ 200) then
    raise (Exc UnknownError (PStr "The API returned an unexpected status code."))
  else
    answer ← lift (json resp);
    lift (SyncAPI._check_for_errors answer).

(** [__aenter__] and [__aexit__] (lines 325-329). *)
Definition __aenter__ (self : SyncAPI.t) : SyncAPI.t := self.

Definition __aexit__ (self : SyncAPI.t) (exc_type : option exc_class)
    (exc_val : option exn) (exc_tb : option unit) : bool :=
  match exc_val with
  | None => true
  | Some _ => false
  end.
End AsyncAPI.

(** [with manager as x: body] and [async with]: the block gets what the
    enter method returns; when the block raises, the exit method is called
    with the exception and a true result suppresses it (the statement then
    completes without a value); otherwise the exception propagates. *)
Definition with_stmt {T A : Type} (enter : T)
    (exit : option exc_class → option exn → option unit → bool)
    (body : T → io A) : io (option A) := λ srv log,
  match body enter srv log with
  | (Returns a, log') =>
      let _ := exit None None None in (Returns (Some a), log')
  | (Raises e, log') =>
      if exit (Some (exc_cls e)) (Some e) (Some ())
      then (Returns None, log')
      else (Raises e, log')
  end.

(** ** An interpretation of the built-ins *)

Definition ascii_lower (a : ascii) : ascii :=
  let n := nat_of_ascii a in
  if ((65 <=? n) && (n <=? 90))%nat then ascii_of_nat (n + 32) else a.

Fixpoint ascii_str_lower (s : string) : string :=
  match s with
  | EmptyString => EmptyString
  | String a rest => String (ascii_lower a) (ascii_str_lower rest)
  end.

(** The built-ins on the values the examples below run on: lower-casing
    of ASCII text, and the f-string conversion of a string (a value of
    another type is shown by its type name, which no example relies on). *)
Definition ascii_builtins : Builtins := {|
  str_lower := ascii_str_lower;
  py_str v := match v with PStr s => s | _ => "<" +:+ type_name v +:+ ">" end
|}.

(** ** Vocabulary of the specification *)

(** The request both [send_messages] build for already serialized
    messages (lines 250-261 and 309-318). *)
Definition request_for (self : SyncAPI.t) (client_id : pyval) (serialized : list pyval)
    (metadata : pyval) (via_crm : bool) : request :=
  {| req_url := SyncAPI.api_url self +:+ "/integrations" +:+
                (if via_crm then "/crm" else "") +:+ "/webhook";
     req_timeout := SyncAPI.timeout self;
     req_json := PDict {[
       "api_key" := SyncAPI.api_key self;
       "chatbot_uuid" := SyncAPI.chatbot_uuid self;
       "client_id" := client_id;
       "messages" := PList serialized;
       "webhook" := SyncAPI.webhook self;
       "metadata" := match metadata with PNone => PDict ∅ | _ => metadata end
     ]} |}.

(** What a call makes of the server's response once it has one
    (lines 263-266 and 320-323). *)
Definition response_outcome `{Builtins} (resp : response) : result unit :=
  if bool_decide (status_code resp ≠ 200) then
    Raises (Exc UnknownError (PStr "The API returned an unexpected status code."))
  else json resp ≫= SyncAPI._check_for_errors.

(** The specification's table from server error code to failure kind. *)
Definition spec_error_table : list (string * exc_class) :=
  [ ("no_reply", NoReply);
    ("in_process", InProcess);
    ("chatbot_not_active", ChatBotNotActive);
    ("chatbot_not_found", ChatBotNotFound);
    ("chatbot_not_trained", ChatBotNotTrained);
    ("bad_request", BadRequest);
    ("access_denied", AccessDenied);
    ("rpd_limit_reached", RPDLimitReached);
    ("spam_block", SpamBlock) ].

(** The message a mapped failure carries: the server's, annotated for
    [BadRequest]. *)
Definition carried_message (kind : exc_class) (m : string) : string :=
  if decide (kind = BadRequest)
  then "Perhaps the `startduckai` package is outdated. Error message: " +:+ m
  else m.

(** The table as a map from code to kind. *)
Definition error_kind (code : string) : option exc_class :=
  (list_to_map spec_error_table : gmap string exc_class) !! code.

(** What a mapped failure carries for the value under [message]. *)
Definition carried `{Builtins} (kind : exc_class) (message : pyval) : pyval :=
  if decide (kind = BadRequest)
  then PStr ("Perhaps the `startduckai` package is outdated. Error message: "
             +:+ py_str message)
  else message.

Definition unexpected_status : exn :=
  Exc UnknownError (PStr "The API returned an unexpected status code.").

(** A body the dispatch has no entry for: a [status] that is neither
    ["success"] nor ["error"], or status ["error"] with an [error] value
    that is no code of the table. *)
Definition unexpected_body (d : gmap string pyval) : Prop :=
  (∃ status, d !! "status" = Some status ∧
     status ≠ PStr "success" ∧ status ≠ PStr "error")
  ∨ (d !! "status" = Some (PStr "error") ∧
     ∃ error, d !! "error" = Some error ∧
       ∀ code kind, (code, kind) ∈ spec_error_table → error ≠ PStr code).

(** The field of a JSON value at a path of keys, when every step is an
    object holding the key. *)
Fixpoint field_at (v : pyval) (path : list string) : option pyval :=
  match path with
  | [] => Some v
  | key :: rest =>
      match v with
      | PDict d => d !! key ≫= λ x, field_at x rest
      | _ => None
      end
  end.

(** The required fields of a webhook body
    [{answer: {text, fbmd, mdv2}, chatbot_uuid, client_id, metadata?}]. *)
Definition required_fields : list (list string) :=
  [ ["answer"; "text"]; ["answer"; "fbmd"]; ["answer"; "mdv2"];
    ["chatbot_uuid"]; ["client_id"] ].

Definition missing_required_field (d : gmap string pyval) : Prop :=
  ∃ path, path ∈ required_fields ∧ field_at (PDict d) path = None.

(** The [answer] of a webhook body, when there is one, is an object. *)
Definition answer_is_object (d : gmap string pyval) : Prop :=
  ∀ v, d !! "answer" = Some v → ∃ a, v = PDict a.

Definition bad_response : exn :=
  Exc BadResponse (PStr
    "The API returned an unexpected response. Perhaps the `startduckai` package is outdated.").

(** The specification's reading of [parse_reply]: a body of the expected
    shape gives the reply holding its fields, and a body missing a
    required field fails with [BadResponse]. *)
Definition parse_reply_contract : Prop :=
  (∀ d a text fbmd mdv2 chatbot_uuid client_id,
     d !! "answer" = Some (PDict a) →
     a !! "text" = Some text → a !! "fbmd" = Some fbmd → a !! "mdv2" = Some mdv2 →
     d !! "chatbot_uuid" = Some chatbot_uuid → d !! "client_id" = Some client_id →
     SyncAPI.parse_reply (PDict d) =
       Returns (ReplyMessage.__init__ text fbmd mdv2 chatbot_uuid client_id
                  (default PNone (d !! "metadata"))))
  ∧ (∀ d, missing_required_field d →
     ∃ arg, SyncAPI.parse_reply (PDict d) = Raises (Exc BadResponse arg)).

(** The keys the response check reads: [status]; [error] when the status
    is ["error"]; [message] when the error code is in the table. *)
Definition keys_present (d : gmap string pyval) : Prop :=
  ∃ status, d !! "status" = Some status ∧
    (status = PStr "error" →
     ∃ error, d !! "error" = Some error ∧
       ∀ code kind, (code, kind) ∈ spec_error_table → error = PStr code →
         is_Some (d !! "message")).

(** A text message in the state [__init__] stores before its check:
    [data] and [mime] in the instance, [type] in the class. *)
Definition text_message_state (s : string) : object :=
  Object TextMessage {[ "data" := PStr s; "mime" := PStr "text/plain" ]}.

(** What [serialize] raises on an instance that has no [data]. *)
Definition no_data (self : object) : exn :=
  Exc AttributeError
    (PStr ("'" +:+ class_name (ob_class self) +:+ "' object has no attribute 'data'")).

(** ** A client, a message list and servers to run the model on *)

Definition example_api : SyncAPI.t :=
  SyncAPI.__init__ (PStr "key") (PStr "bot") (PStr "https://example.org/hook")
    DEFAULT_API_URL DEFAULT_API_TIMEOUT.

Definition hello_serialized : pyval :=
  PDict {[ "type" := PStr "text"; "mime" := PStr "text/plain"; "data" := PStr "hello" ]}.

(** A server that gives every request the same response. *)
Definition always (resp : response) : transport := λ _, resp.

(** [resp.json()] on a body that is not JSON. *)
Definition not_json : result pyval :=
  Raises (Exc JSONDecodeError (PStr "Expecting value: line 1 column 1 (char 0)")).

Definition success_body : gmap string pyval := {[ "status" := PStr "success" ]}.

Definition spam_block_body : gmap string pyval :=
  {[ "status" := PStr "error"; "error" := PStr "spam_block"; "message" := PStr "m" ]}.

Definition pending_body : gmap string pyval := {[ "status" := PStr "pending" ]}.

Definition reply_body : gmap string pyval :=
  {[ "answer" := PDict {[ "text" := PStr "hi"; "fbmd" := PStr "**hi**";
                          "mdv2" := PStr "*hi*" ]};
     "chatbot_uuid" := PStr "c1";
     "client_id" := PStr "u1" ]}.

(** * Properties *)

Section properties.
Context {builtins : Builtins}.

Local Ltac run := unfold mbind, mret, result_bind, result_ret; simpl.

(** ** Message construction *)

Lemma class_lookup_mimetypes (c : class) :
  class_lookup (mro c) "mimetypes" = None.
Proof. by destruct c. Qed.

Lemma getattr_mimetypes (self : object) :
  ob_dict self !! "mimetypes" = None →
  getattr self "mimetypes" =
    Raises (Exc AttributeError
      (PStr ("'" +:+ class_name (ob_class self) +:+
             "' object has no attribute 'mimetypes'"))).
Proof.
  intros Hnone. unfold getattr.
  by rewrite Hnone, class_lookup_mimetypes.
Qed.

(** [MessageBase.__init__] never reaches its membership test: the
    attribute it reads is assigned nowhere. *)
Lemma MessageBase_init_raises (self : object) (data : pyval) (m : string) :
  ob_dict self !! "mimetypes" = None →
  MessageBase.__init__ self data (PStr m) =
    Raises (Exc AttributeError
      (PStr ("'" +:+ class_name (ob_class self) +:+
             "' object has no attribute 'mimetypes'"))).
Proof.
  intros Hnone. unfold MessageBase.__init__. run.
  rewrite getattr_mimetypes; [done|].
  simpl. by rewrite !lookup_insert_ne.
Qed.

(** C1.  The claim: construction fails with [InvalidMimeType] outside
    the variant's allowed set and succeeds inside it.  The code: for
    every variant taking a mimeType and every mimeType string, in the
    allowed set or not, construction raises [AttributeError], because
    [__init__] reads [self.mimetypes] while the allowed set is the class
    attribute [mime]. *)
Theorem new_raises_AttributeError (c : class) (data : pyval) (m : string) :
  c ≠ TextMessage →
  new c data (PStr m) =
    Raises (Exc AttributeError
      (PStr ("'" +:+ class_name c +:+ "' object has no attribute 'mimetypes'"))).
Proof.
  intros Hc. destruct c; try done;
    apply (MessageBase_init_raises (Object _ ∅)), lookup_empty.
Qed.

(** ** Serialization *)

Lemma serialize_text_message_state (s : string) :
  MessageBase.serialize (text_message_state s) =
    Returns (PDict {[ "type" := PStr "text"; "mime" := PStr "text/plain";
                      "data" := PStr s ]}).
Proof. reflexivity. Qed.

Lemma TextMessage_init_raises (text : pyval) :
  new_text text =
    Raises (Exc AttributeError
      (PStr "'TextMessage' object has no attribute 'mimetypes'")).
Proof.
  unfold new_text, TextMessage.__init__.
  change (getattr (Object TextMessage ∅) "mime")
    with (Returns (PList [PStr "text/plain"])).
  run. apply (MessageBase_init_raises (Object TextMessage ∅)), lookup_empty.
Qed.

(** C9.  The claim: a Text message constructed with content [s]
    serializes to [{type: "text", mime: "text/plain", data: s}].  The
    code: constructing the Text message raises [AttributeError] for every
    [s], so there is no message to serialize. *)
Theorem new_text_serialize_raises (s : string) :
  new_text (PStr s) ≫= MessageBase.serialize =
    Raises (Exc AttributeError
      (PStr "'TextMessage' object has no attribute 'mimetypes'")).
Proof. by rewrite TextMessage_init_raises. Qed.

(** ** Sending *)

Lemma response_outcome_io (resp : response) (srv : transport) (log : list request) :
  (if bool_decide (status_code resp ≠ 200)
   then raise unexpected_status
   else answer ← lift (json resp); lift (SyncAPI._check_for_errors answer)) srv log
  = (response_outcome resp, log).
Proof.
  unfold response_outcome. case_bool_decide; [done|].
  unfold mbind, io_bind, lift, result_bind. by destruct (json resp).
Qed.

(** The suspending variant: serialize, post once, dispatch on the
    response. *)
Lemma async_send_messages_run self client_id messages serialized metadata via_crm
    (srv : transport) (log : list request) :
  mapM MessageBase.serialize messages = Returns serialized →
  AsyncAPI.send_messages self client_id messages metadata via_crm srv log =
    (response_outcome (srv (request_for self client_id serialized metadata via_crm)),
     (log ++ [request_for self client_id serialized metadata via_crm])%list).
Proof.
  intros Hser. unfold AsyncAPI.send_messages.
  unfold mbind at 1, io_bind at 1, lift at 1. rewrite Hser.
  unfold mbind at 1, io_bind at 1, post.
  apply response_outcome_io.
Qed.

(** The blocking variant does the same once the list is not empty. *)
Lemma sync_send_messages_run self client_id messages serialized metadata via_crm
    (srv : transport) (log : list request) :
  messages ≠ [] →
  mapM MessageBase.serialize messages = Returns serialized →
  SyncAPI.send_messages self client_id messages metadata via_crm srv log =
    (response_outcome (srv (request_for self client_id serialized metadata via_crm)),
     (log ++ [request_for self client_id serialized metadata via_crm])%list).
Proof.
  intros Hne Hser. unfold SyncAPI.send_messages.
  rewrite bool_decide_false by (by destruct messages).
  unfold mbind at 1, io_bind at 1, lift at 1. rewrite Hser.
  unfold mbind at 1, io_bind at 1, post.
  apply response_outcome_io.
Qed.

(** A message that does not serialize stops both variants before the
    POST. *)
Lemma send_messages_serialize_raises self client_id messages e metadata via_crm
    (srv : transport) (log : list request) :
  mapM MessageBase.serialize messages = Raises e →
  SyncAPI.send_messages self client_id messages metadata via_crm srv log = (Raises e, log)
  ∧ AsyncAPI.send_messages self client_id messages metadata via_crm srv log = (Raises e, log).
Proof.
  intros Hser. split.
  - unfold SyncAPI.send_messages.
    rewrite bool_decide_false by (by destruct messages).
    unfold mbind at 1, io_bind at 1, lift at 1. by rewrite Hser.
  - unfold AsyncAPI.send_messages.
    unfold mbind at 1, io_bind at 1, lift at 1. by rewrite Hser.
Qed.

(** ** The response check *)

Lemma py_eq_str_refl (lit : string) : py_eq_str (PStr lit) lit = true.
Proof. simpl. by rewrite bool_decide_true. Qed.

Lemma py_eq_str_ne (v : pyval) (lit : string) :
  v ≠ PStr lit → py_eq_str v lit = false.
Proof.
  intros Hne. destruct v; simpl; try done.
  apply bool_decide_false. congruence.
Qed.

Lemma error_kind_elem_of (code : string) (kind : exc_class) :
  (code, kind) ∈ spec_error_table ↔ error_kind code = Some kind.
Proof.
  unfold error_kind. apply elem_of_list_to_map.
  vm_compute. repeat (constructor; [by rewrite ?elem_of_cons, elem_of_nil; intuition discriminate|]).
  constructor.
Qed.

Lemma check_success (d : gmap string pyval) :
  d !! "status" = Some (PStr "success") →
  SyncAPI._check_for_errors (PDict d) = Returns ().
Proof.
  intros Hst. unfold SyncAPI._check_for_errors. simpl py_getitem.
  by rewrite Hst.
Qed.

Lemma check_missing_status (d : gmap string pyval) :
  d !! "status" = None →
  SyncAPI._check_for_errors (PDict d) = Raises (Exc KeyError (PStr "status")).
Proof.
  intros Hst. unfold SyncAPI._check_for_errors. simpl py_getitem.
  by rewrite Hst.
Qed.

Lemma check_other_status (d : gmap string pyval) (status : pyval) :
  d !! "status" = Some status →
  status ≠ PStr "success" → status ≠ PStr "error" →
  SyncAPI._check_for_errors (PDict d) = Raises unexpected_status.
Proof.
  intros Hst Hs He. unfold SyncAPI._check_for_errors. simpl py_getitem.
  rewrite Hst. run. by rewrite !py_eq_str_ne.
Qed.

Lemma py_eq_str_code (code lit : string) :
  code ≠ lit → py_eq_str (PStr code) lit = false.
Proof. intros Hne. apply py_eq_str_ne. congruence. Qed.

Local Ltac code_case code lit :=
  destruct (decide (code = lit)) as [->|?];
  [ rewrite py_eq_str_refl;
    destruct (py_getitem _ (Key "message")); reflexivity
  | rewrite (py_eq_str_code code lit) by done ].

(** The chain of [case] clauses under [status == 'error'] is a lookup
    of the code in the table. *)
Lemma check_error (d : gmap string pyval) (error : pyval) :
  d !! "status" = Some (PStr "error") →
  d !! "error" = Some error →
  SyncAPI._check_for_errors (PDict d) =
    match error with
    | PStr code =>
        match error_kind code with
        | Some kind =>
            message ← py_getitem (PDict d) (Key "message");
            Raises (Exc kind (carried kind message))
        | None => Raises unexpected_status
        end
    | _ => Raises unexpected_status
    end.
Proof.
  intros Hst Her. unfold SyncAPI._check_for_errors.
  simpl (py_getitem _ (Key "status")). rewrite Hst.
  unfold mbind at 1, result_bind at 1.
  rewrite (py_eq_str_code "error" "success") by done.
  rewrite py_eq_str_refl.
  simpl (py_getitem _ (Key "error")). rewrite Her.
  unfold mbind at 1, result_bind at 1.
  destruct error as [| | |code| |]; try reflexivity.
  code_case code "no_reply".
  code_case code "in_process".
  code_case code "chatbot_not_active".
  code_case code "chatbot_not_found".
  code_case code "chatbot_not_trained".
  code_case code "bad_request".
  code_case code "access_denied".
  code_case code "rpd_limit_reached".
  code_case code "spam_block".
  unfold error_kind. simpl list_to_map.
  rewrite !lookup_insert_ne by done. by rewrite lookup_empty.
Qed.

Lemma check_missing_error (d : gmap string pyval) :
  d !! "status" = Some (PStr "error") →
  d !! "error" = None →
  SyncAPI._check_for_errors (PDict d) = Raises (Exc KeyError (PStr "error")).
Proof.
  intros Hst Her. unfold SyncAPI._check_for_errors.
  simpl (py_getitem _ (Key "status")). rewrite Hst.
  unfold mbind at 1, result_bind at 1.
  rewrite (py_eq_str_code "error" "success") by done.
  rewrite py_eq_str_refl.
  simpl (py_getitem _ (Key "error")). by rewrite Her.
Qed.

Lemma response_outcome_200 (answer : pyval) :
  response_outcome (Response 200 (Returns answer)) = SyncAPI._check_for_errors answer.
Proof. reflexivity. Qed.

Lemma response_outcome_not_200 (resp : response) :
  status_code resp ≠ 200 → response_outcome resp = Raises unexpected_status.
Proof. intros Hne. unfold response_outcome. by rewrite bool_decide_true. Qed.

(** Both variants, for messages that serialize, in one statement. *)
Lemma send_messages_run self client_id messages serialized metadata via_crm
    (srv : transport) (log : list request) (outcome : result unit) :
  mapM MessageBase.serialize messages = Returns serialized →
  response_outcome (srv (request_for self client_id serialized metadata via_crm)) = outcome →
  let posted := (log ++ [request_for self client_id serialized metadata via_crm])%list in
  (messages ≠ [] →
   SyncAPI.send_messages self client_id messages metadata via_crm srv log = (outcome, posted))
  ∧ AsyncAPI.send_messages self client_id messages metadata via_crm srv log = (outcome, posted).
Proof.
  intros Hser <-. split.
  - intros Hne. by apply sync_send_messages_run.
  - by apply async_send_messages_run.
Qed.


(** C2.  The claim: with an empty list both variants fail with
    [BadRequest] and post nothing.  The code: the blocking variant does;
    the suspending variant has no such guard, posts the request with an
    empty [messages] array and ends as the server's response decides. *)
Theorem send_messages_empty self client_id metadata via_crm
    (srv : transport) (log : list request) :
  SyncAPI.send_messages self client_id [] metadata via_crm srv log =
    (Raises (Exc BadRequest (PStr "List of messages must contain at least one message!")),
     log)
  ∧ AsyncAPI.send_messages self client_id [] metadata via_crm srv log =
    (response_outcome (srv (request_for self client_id [] metadata via_crm)),
     (log ++ [request_for self client_id [] metadata via_crm])%list).
Proof. split; [done|]. by apply async_send_messages_run. Qed.

(** The suspending variant on the empty list, against a server that
    answers success: one request posted, normal return. *)
Lemma async_send_messages_empty_at_success :
  AsyncAPI.send_messages example_api (PStr "u1") [] PNone false
    (always (Response 200 (Returns (PDict success_body)))) [] =
  (Returns (), [request_for example_api (PStr "u1") [] PNone false]).
Proof. reflexivity. Qed.

(** C3.  The claim: on identical inputs and server behaviour the two
    variants end alike.  The code: on the empty list, against a server
    that answers HTTP 200 with status ["success"], the blocking variant
    fails with [BadRequest] and the suspending variant returns. *)
Theorem sync_async_differ_on_empty_list self client_id metadata via_crm
    (srv : transport) (log : list request) (d : gmap string pyval) :
  srv (request_for self client_id [] metadata via_crm) = Response 200 (Returns (PDict d)) →
  d !! "status" = Some (PStr "success") →
  (SyncAPI.send_messages self client_id [] metadata via_crm srv log).1 =
    Raises (Exc BadRequest (PStr "List of messages must contain at least one message!"))
  ∧ (AsyncAPI.send_messages self client_id [] metadata via_crm srv log).1 = Returns ().
Proof.
  intros Hsrv Hst. split; [done|].
  rewrite (async_send_messages_run _ _ _ []) by done.
  simpl. by rewrite Hsrv, response_outcome_200, check_success.
Qed.

(** C4.  When the server answers HTTP 200 with a JSON object whose
    [status] is ["success"], [send_messages] returns normally with no
    value, having posted one request; the blocking variant reaches the
    server when the list is not empty. *)
Theorem send_messages_success self client_id messages serialized metadata via_crm
    (srv : transport) (log : list request) (d : gmap string pyval) :
  mapM MessageBase.serialize messages = Returns serialized →
  srv (request_for self client_id serialized metadata via_crm) = Response 200 (Returns (PDict d)) →
  d !! "status" = Some (PStr "success") →
  let posted := (log ++ [request_for self client_id serialized metadata via_crm])%list in
  (messages ≠ [] →
   SyncAPI.send_messages self client_id messages metadata via_crm srv log = (Returns (), posted))
  ∧ AsyncAPI.send_messages self client_id messages metadata via_crm srv log = (Returns (), posted).
Proof.
  intros Hser Hsrv Hst. apply send_messages_run; [done|].
  by rewrite Hsrv, response_outcome_200, check_success.
Qed.

(** C5.  When the server answers with an HTTP status other than 200,
    [send_messages] fails with [UnknownError], whatever the body is
    (JSON or not). *)
Theorem send_messages_not_200 self client_id messages serialized metadata via_crm
    (srv : transport) (log : list request) :
  mapM MessageBase.serialize messages = Returns serialized →
  status_code (srv (request_for self client_id serialized metadata via_crm)) ≠ 200 →
  let posted := (log ++ [request_for self client_id serialized metadata via_crm])%list in
  (messages ≠ [] →
   SyncAPI.send_messages self client_id messages metadata via_crm srv log =
     (Raises (Exc UnknownError (PStr "The API returned an unexpected status code.")), posted))
  ∧ AsyncAPI.send_messages self client_id messages metadata via_crm srv log =
     (Raises (Exc UnknownError (PStr "The API returned an unexpected status code.")), posted).
Proof.
  intros Hser Hcode. apply send_messages_run; [done|].
  by apply response_outcome_not_200.
Qed.

Lemma carried_str (kind : exc_class) (m : string) :
  str_of_str → carried kind (PStr m) = PStr (carried_message kind m).
Proof.
  intros Hstr. unfold carried, carried_message.
  case_decide; [by rewrite Hstr | done].
Qed.

Lemma check_mapped (d : gmap string pyval) (code : string) (kind : exc_class)
    (message : pyval) :
  d !! "status" = Some (PStr "error") →
  d !! "error" = Some (PStr code) →
  d !! "message" = Some message →
  (code, kind) ∈ spec_error_table →
  SyncAPI._check_for_errors (PDict d) = Raises (Exc kind (carried kind message)).
Proof.
  intros Hst Her Hmsg Hin. rewrite (check_error d (PStr code)) by done.
  apply error_kind_elem_of in Hin. rewrite Hin. simpl py_getitem. by rewrite Hmsg.
Qed.

(** C6.  When the server answers HTTP 200 with status ["error"], an
    [error] code of the table and a [message] string, [send_messages]
    fails with the kind the table maps the code to, carrying that
    message string; for [bad_request] the string is prefixed with the
    note that the package may be outdated. *)
Theorem send_messages_mapped_error self client_id messages serialized metadata via_crm
    (srv : transport) (log : list request) (d : gmap string pyval)
    (code : string) (kind : exc_class) (m : string) :
  str_of_str →
  mapM MessageBase.serialize messages = Returns serialized →
  srv (request_for self client_id serialized metadata via_crm) = Response 200 (Returns (PDict d)) →
  d !! "status" = Some (PStr "error") →
  d !! "error" = Some (PStr code) →
  d !! "message" = Some (PStr m) →
  (code, kind) ∈ spec_error_table →
  let posted := (log ++ [request_for self client_id serialized metadata via_crm])%list in
  let failure := Raises (Exc kind (PStr (carried_message kind m))) in
  (messages ≠ [] →
   SyncAPI.send_messages self client_id messages metadata via_crm srv log = (failure, posted))
  ∧ AsyncAPI.send_messages self client_id messages metadata via_crm srv log = (failure, posted).
Proof.
  intros Hstr Hser Hsrv Hst Her Hmsg Hin. apply send_messages_run; [done|].
  rewrite Hsrv, response_outcome_200, (check_mapped d code kind (PStr m)) by done.
  by rewrite carried_str.
Qed.

Lemma check_unexpected_body (d : gmap string pyval) :
  unexpected_body d →
  SyncAPI._check_for_errors (PDict d) = Raises unexpected_status.
Proof.
  intros [(status & Hst & Hs & He) | (Hst & error & Her & Hcode)].
  - by apply (check_other_status d status).
  - rewrite (check_error d error) by done.
    destruct error as [| | |code| |]; try done.
    destruct (error_kind code) as [kind|] eqn:Hk; [|done].
    apply error_kind_elem_of in Hk. by destruct (Hcode code kind).
Qed.

(** C7.  When the server answers HTTP 200 with a JSON object whose
    [status] value is neither ["success"] nor ["error"] (a string or a
    value of any other type), or whose [status] is ["error"] and whose
    [error] value is no code of the dispatch table, [send_messages]
    fails with [UnknownError]. *)
Theorem send_messages_unexpected_body self client_id messages serialized metadata via_crm
    (srv : transport) (log : list request) (d : gmap string pyval) :
  mapM MessageBase.serialize messages = Returns serialized →
  srv (request_for self client_id serialized metadata via_crm) = Response 200 (Returns (PDict d)) →
  unexpected_body d →
  let posted := (log ++ [request_for self client_id serialized metadata via_crm])%list in
  (messages ≠ [] →
   SyncAPI.send_messages self client_id messages metadata via_crm srv log =
     (Raises (Exc UnknownError (PStr "The API returned an unexpected status code.")), posted))
  ∧ AsyncAPI.send_messages self client_id messages metadata via_crm srv log =
     (Raises (Exc UnknownError (PStr "The API returned an unexpected status code.")), posted).
Proof.
  intros Hser Hsrv Hbody. apply send_messages_run; [done|].
  by rewrite Hsrv, response_outcome_200, check_unexpected_body.
Qed.

(** ** Keys the response check reads *)

Lemma is_str_dec (v : pyval) (lit : string) : {v = PStr lit} + {v ≠ PStr lit}.
Proof.
  destruct v as [| | |s| |]; try (right; discriminate).
  destruct (decide (s = lit)) as [->|Hne]; [by left|right; congruence].
Qed.

Lemma table_kinds_declared (code : string) (kind : exc_class) :
  error_kind code = Some kind → declared_by_module kind = true.
Proof.
  intros Hk. apply error_kind_elem_of in Hk. unfold spec_error_table in Hk.
  repeat (apply elem_of_cons in Hk as [[= _ ->]|Hk]; [done|]).
  by apply elem_of_nil in Hk.
Qed.

(** Either every key the check reads is there and the check returns or
    raises a failure the module declares, or one is absent and the check
    raises the [KeyError] of that lookup. *)
Lemma check_keys (d : gmap string pyval) :
  (keys_present d ∧
     (SyncAPI._check_for_errors (PDict d) = Returns ()
      ∨ ∃ e, SyncAPI._check_for_errors (PDict d) = Raises e
             ∧ declared_by_module (exc_cls e) = true))
  ∨ (¬ keys_present d ∧
     ∃ key, d !! key = None
            ∧ SyncAPI._check_for_errors (PDict d) = Raises (Exc KeyError (PStr key))).
Proof.
  destruct (d !! "status") as [status|] eqn:Hst.
  2: { right. split; [intros (? & ? & _); congruence|]. exists "status".
       by rewrite check_missing_status. }
  destruct (is_str_dec status "success") as [->|Hs].
  { left. split; [by exists (PStr "success")|]. left. by apply check_success. }
  destruct (is_str_dec status "error") as [->|He].
  2: { left. split; [by exists status|]. right. exists unexpected_status.
       by rewrite (check_other_status d status). }
  destruct (d !! "error") as [error|] eqn:Her.
  2: { right. split.
       - intros (st & Hst' & Hk). destruct Hk as (? & ? & _); congruence.
       - exists "error". by rewrite check_missing_error. }
  rewrite (check_error d error) by done.
  assert (Hother : (∀ code, error = PStr code → error_kind code = None) →
    keys_present d).
  { intros Hnone. exists (PStr "error"). split; [done|]. intros _.
    exists error. split; [done|]. intros code kind Hin ->.
    apply error_kind_elem_of in Hin. by rewrite Hnone in Hin. }
  destruct error as [| | |code| |];
    try (left; split; [by apply Hother|]; right; by exists unexpected_status).
  destruct (error_kind code) as [kind|] eqn:Hk.
  2: { left. split; [apply Hother; congruence|]. right. by exists unexpected_status. }
  simpl py_getitem. destruct (d !! "message") as [message|] eqn:Hmsg.
  - left. split.
    + exists (PStr "error"). split; [done|]. intros _.
      exists (PStr code). split; [done|]. by intros.
    + right. eexists. split; [done|]. simpl. by apply (table_kinds_declared code).
  - right. split; [|by exists "message"].
    intros (st & Hst' & Hkeys). destruct Hkeys as (er & Her' & Hm); [congruence|].
    apply error_kind_elem_of in Hk.
    destruct (Hm code kind Hk) as [? ?]; congruence.
Qed.

Lemma keys_absent_empty : ¬ keys_present ∅.
Proof. intros (status & Hst & _). by rewrite lookup_empty in Hst. Qed.

Lemma keys_absent_no_message :
  ¬ keys_present {[ "status" := PStr "error"; "error" := PStr "spam_block" ]}.
Proof.
  intros (status & Hst & Hkeys).
  assert (status = PStr "error") as -> by (vm_compute in Hst; congruence).
  destruct Hkeys as (error & Her & Hmsg); [done|].
  assert (error = PStr "spam_block") as -> by (vm_compute in Her; congruence).
  destruct (Hmsg "spam_block" SpamBlock) as [message Hm]; [|done|done].
  unfold spec_error_table. rewrite !elem_of_cons. tauto.
Qed.

(** C10.  The response check ends inside the module's failure kinds only
    when the body holds the keys it reads: with [status], with [error]
    when the status is ["error"], and with [message] when the error code
    is in the table, it returns or raises a failure the module declares;
    with one of them absent it raises the [KeyError] of that lookup, and
    so does [send_messages] on an HTTP 200 response with such a body.
    [{}] and [{status: "error", error: "spam_block"}] are such bodies. *)
Theorem check_for_errors_needs_keys :
  (∀ d, keys_present d →
     SyncAPI._check_for_errors (PDict d) = Returns ()
     ∨ ∃ e, SyncAPI._check_for_errors (PDict d) = Raises e
            ∧ declared_by_module (exc_cls e) = true)
  ∧ (∀ d self client_id messages serialized metadata via_crm
       (srv : transport) (log : list request),
     ¬ keys_present d →
     mapM MessageBase.serialize messages = Returns serialized →
     srv (request_for self client_id serialized metadata via_crm) = Response 200 (Returns (PDict d)) →
     ∃ key, d !! key = None ∧
       let posted := (log ++ [request_for self client_id serialized metadata via_crm])%list in
       let failure := Raises (Exc KeyError (PStr key)) in
       declared_by_module KeyError = false
       ∧ SyncAPI._check_for_errors (PDict d) = failure
       ∧ (messages ≠ [] →
          SyncAPI.send_messages self client_id messages metadata via_crm srv log
            = (failure, posted))
       ∧ AsyncAPI.send_messages self client_id messages metadata via_crm srv log
            = (failure, posted))
  ∧ ¬ keys_present ∅
  ∧ ¬ keys_present {[ "status" := PStr "error"; "error" := PStr "spam_block" ]}.
Proof.
  split; [|split; [|split]].
  - intros d Hkeys. by destruct (check_keys d) as [[_ ?]|[? _]].
  - intros d self client_id messages serialized metadata via_crm srv log
      Hkeys Hser Hsrv.
    destruct (check_keys d) as [[? _]|[_ (key & Hnone & Hraise)]]; [done|].
    exists key. split; [done|]. split; [done|]. split; [done|].
    apply send_messages_run; [done|].
    by rewrite Hsrv, response_outcome_200.
  - apply keys_absent_empty.
  - apply keys_absent_no_message.
Qed.

End properties.

(** ** Parsing a webhook body *)

Lemma parse_reply_complete (d a : gmap string pyval)
    (text fbmd mdv2 chatbot_uuid client_id : pyval) :
  d !! "answer" = Some (PDict a) →
  a !! "text" = Some text → a !! "fbmd" = Some fbmd → a !! "mdv2" = Some mdv2 →
  d !! "chatbot_uuid" = Some chatbot_uuid → d !! "client_id" = Some client_id →
  SyncAPI.parse_reply (PDict d) =
    Returns (ReplyMessage.__init__ text fbmd mdv2 chatbot_uuid client_id
               (default PNone (d !! "metadata"))).
Proof.
  intros Ha Ht Hf Hm Hu Hc.
  unfold SyncAPI.parse_reply, ReplyMessage.deserialize. simpl.
  rewrite Ha. simpl. rewrite Ht. simpl. rewrite Hf. simpl. rewrite Hm. simpl.
  rewrite Hu. simpl. rewrite Hc. simpl. reflexivity.
Qed.

(** A body whose [answer], if any, is an object and that misses a required
    field stops at the [KeyError] of the first absent key, which
    [parse_reply] turns into [BadResponse]. *)
Lemma parse_reply_missing (d : gmap string pyval) :
  answer_is_object d → missing_required_field d →
  SyncAPI.parse_reply (PDict d) = Raises bad_response.
Proof.
  intros Hobj (path & Hin & Hnone).
  unfold SyncAPI.parse_reply, ReplyMessage.deserialize. simpl.
  destruct (d !! "answer") as [v|] eqn:Ha; [|done].
  destruct (Hobj v Ha) as [a ->]. simpl.
  destruct (a !! "text") as [text|] eqn:Ht; [simpl|done].
  destruct (a !! "fbmd") as [fbmd|] eqn:Hf; [simpl|done].
  destruct (a !! "mdv2") as [mdv2|] eqn:Hm; [simpl|done].
  destruct (d !! "chatbot_uuid") as [chatbot_uuid|] eqn:Hu; [simpl|done].
  destruct (d !! "client_id") as [client_id|] eqn:Hc; [simpl|done].
  exfalso. unfold required_fields in Hin.
  repeat (apply elem_of_cons in Hin as [->|Hin];
          [simpl in Hnone; rewrite ?Ha, ?Hu, ?Hc in Hnone; simpl in Hnone;
           rewrite ?Ht, ?Hf, ?Hm in Hnone; discriminate|]).
  by apply elem_of_nil in Hin.
Qed.

(** A body whose [answer] is not an object: the subscript on it raises
    [TypeError], which [parse_reply] does not catch. *)
Lemma parse_reply_answer_not_object :
  missing_required_field {[ "answer" := PInt 5 ]}
  ∧ SyncAPI.parse_reply (PDict {[ "answer" := PInt 5 ]}) =
      Raises (Exc TypeError (PStr "'int' object is not subscriptable")).
Proof.
  split; [|reflexivity].
  exists ["chatbot_uuid"]. split; [|reflexivity].
  unfold required_fields. rewrite !elem_of_cons. tauto.
Qed.

(** C8, as stated, fails: the body [{answer: 5}] misses required fields
    and [parse_reply] raises [TypeError] on it, not [BadResponse]. *)
Lemma parse_reply_contract_fails : ¬ parse_reply_contract.
Proof.
  intros [_ Hmissing].
  destruct parse_reply_answer_not_object as [Hfield Hraise].
  destruct (Hmissing _ Hfield) as [arg Harg].
  rewrite Hraise in Harg. discriminate.
Qed.

(** C8, amended.  For every JSON object of shape
    [{answer: {text, fbmd, mdv2}, chatbot_uuid, client_id, metadata?}],
    [parse_reply] returns a reply holding exactly those values, with
    [metadata] [None] when absent; and for every JSON object missing a
    required field whose [answer], when present, is itself a JSON object,
    [parse_reply] fails with [BadResponse]. *)
Theorem parse_reply_spec :
  (∀ d a text fbmd mdv2 chatbot_uuid client_id,
     d !! "answer" = Some (PDict a) →
     a !! "text" = Some text → a !! "fbmd" = Some fbmd → a !! "mdv2" = Some mdv2 →
     d !! "chatbot_uuid" = Some chatbot_uuid → d !! "client_id" = Some client_id →
     SyncAPI.parse_reply (PDict d) =
       Returns (ReplyMessage.__init__ text fbmd mdv2 chatbot_uuid client_id
                  (default PNone (d !! "metadata"))))
  ∧ (∀ d, answer_is_object d → missing_required_field d →
     SyncAPI.parse_reply (PDict d) = Raises bad_response).
Proof.
  split.
  - intros. by apply (parse_reply_complete d a).
  - apply parse_reply_missing.
Qed.

(** * The properties at concrete inputs *)

Lemma new_raises_AttributeError_at_ogg :
  VoiceMessage ≠ TextMessage
  ∧ new (H:=ascii_builtins) VoiceMessage (PStr "https://example.org/a.ogg") (PStr "audio/ogg") =
      Raises (Exc AttributeError
        (PStr "'VoiceMessage' object has no attribute 'mimetypes'")).
Proof.
  split; [discriminate|].
  apply (new_raises_AttributeError (builtins:=ascii_builtins) VoiceMessage).
  discriminate.
Defined.

Lemma sync_async_differ_on_empty_list_at_success :
  (SyncAPI.send_messages (H:=ascii_builtins) example_api (PStr "u1") [] PNone false
     (always (Response 200 (Returns (PDict success_body)))) []).1 =
    Raises (Exc BadRequest (PStr "List of messages must contain at least one message!"))
  ∧ (AsyncAPI.send_messages (H:=ascii_builtins) example_api (PStr "u1") [] PNone false
       (always (Response 200 (Returns (PDict success_body)))) []).1 = Returns ().
Proof.
  apply (sync_async_differ_on_empty_list (builtins:=ascii_builtins)
           example_api (PStr "u1") PNone false _ [] success_body);
    reflexivity.
Defined.

Lemma send_messages_success_at_hello :
  let srv := always (Response 200 (Returns (PDict success_body))) in
  let posted := [request_for example_api (PStr "u1") [hello_serialized] PNone false] in
  SyncAPI.send_messages (H:=ascii_builtins) example_api (PStr "u1")
    [text_message_state "hello"] PNone false srv [] = (Returns (), posted)
  ∧ AsyncAPI.send_messages (H:=ascii_builtins) example_api (PStr "u1")
    [text_message_state "hello"] PNone false srv [] = (Returns (), posted).
Proof.
  intros srv posted.
  destruct (send_messages_success (builtins:=ascii_builtins) example_api (PStr "u1")
              [text_message_state "hello"] [hello_serialized] PNone false srv []
              success_body eq_refl eq_refl eq_refl) as [Hsync Hasync].
  split; [apply Hsync; discriminate | exact Hasync].
Defined.

Lemma send_messages_not_200_at_503 :
  let srv := always (Response 503 not_json) in
  let posted := [request_for example_api (PStr "u1") [hello_serialized] PNone true] in
  let failure := Raises (Exc UnknownError (PStr "The API returned an unexpected status code.")) in
  SyncAPI.send_messages (H:=ascii_builtins) example_api (PStr "u1")
    [text_message_state "hello"] PNone true srv [] = (failure, posted)
  ∧ AsyncAPI.send_messages (H:=ascii_builtins) example_api (PStr "u1")
    [text_message_state "hello"] PNone true srv [] = (failure, posted).
Proof.
  intros srv posted failure.
  destruct (send_messages_not_200 (builtins:=ascii_builtins) example_api (PStr "u1")
              [text_message_state "hello"] [hello_serialized] PNone true srv []
              eq_refl) as [Hsync Hasync]; [discriminate|].
  split; [apply Hsync; discriminate | exact Hasync].
Defined.

Lemma str_of_str_ascii : str_of_str (H:=ascii_builtins).
Proof. intros s. reflexivity. Defined.

Lemma spam_block_in_table : ("spam_block", SpamBlock) ∈ spec_error_table.
Proof. unfold spec_error_table. rewrite !elem_of_cons. tauto. Defined.

Lemma send_messages_mapped_error_at_spam_block :
  let srv := always (Response 200 (Returns (PDict spam_block_body))) in
  let posted := [request_for example_api (PStr "u1") [hello_serialized] PNone false] in
  let failure := Raises (Exc SpamBlock (PStr "m")) in
  SyncAPI.send_messages (H:=ascii_builtins) example_api (PStr "u1")
    [text_message_state "hello"] PNone false srv [] = (failure, posted)
  ∧ AsyncAPI.send_messages (H:=ascii_builtins) example_api (PStr "u1")
    [text_message_state "hello"] PNone false srv [] = (failure, posted).
Proof.
  intros srv posted failure.
  destruct (send_messages_mapped_error (builtins:=ascii_builtins) example_api (PStr "u1")
              [text_message_state "hello"] [hello_serialized] PNone false srv []
              spam_block_body "spam_block" SpamBlock "m"
              str_of_str_ascii eq_refl eq_refl eq_refl eq_refl eq_refl
              spam_block_in_table) as [Hsync Hasync].
  split; [apply Hsync; discriminate | exact Hasync].
Defined.

Lemma pending_body_unexpected : unexpected_body pending_body.
Proof.
  left. exists (PStr "pending"). split; [reflexivity|]. split; discriminate.
Defined.

Lemma send_messages_unexpected_body_at_pending :
  let srv := always (Response 200 (Returns (PDict pending_body))) in
  let posted := [request_for example_api (PStr "u1") [hello_serialized] PNone false] in
  let failure := Raises (Exc UnknownError (PStr "The API returned an unexpected status code.")) in
  SyncAPI.send_messages (H:=ascii_builtins) example_api (PStr "u1")
    [text_message_state "hello"] PNone false srv [] = (failure, posted)
  ∧ AsyncAPI.send_messages (H:=ascii_builtins) example_api (PStr "u1")
    [text_message_state "hello"] PNone false srv [] = (failure, posted).
Proof.
  intros srv posted failure.
  destruct (send_messages_unexpected_body (builtins:=ascii_builtins) example_api (PStr "u1")
              [text_message_state "hello"] [hello_serialized] PNone false srv []
              pending_body eq_refl eq_refl pending_body_unexpected) as [Hsync Hasync].
  split; [apply Hsync; discriminate | exact Hasync].
Defined.

Lemma empty_body_answer_is_object : answer_is_object ∅.
Proof. intros v Hv. rewrite lookup_empty in Hv. discriminate. Defined.

Lemma empty_body_missing_field : missing_required_field ∅.
Proof.
  exists ["client_id"]. split; [|reflexivity].
  unfold required_fields. rewrite !elem_of_cons. tauto.
Defined.

Lemma parse_reply_spec_at_examples :
  SyncAPI.parse_reply (PDict reply_body) =
    Returns (ReplyMessage.__init__ (PStr "hi") (PStr "**hi**") (PStr "*hi*")
               (PStr "c1") (PStr "u1") PNone)
  ∧ SyncAPI.parse_reply (PDict ∅) = Raises bad_response.
Proof.
  destruct parse_reply_spec as [Hshape Hmissing]. split.
  - exact (Hshape reply_body _ (PStr "hi") (PStr "**hi**") (PStr "*hi*")
             (PStr "c1") (PStr "u1") eq_refl eq_refl eq_refl eq_refl eq_refl eq_refl).
  - exact (Hmissing ∅ empty_body_answer_is_object empty_body_missing_field).
Defined.

Lemma check_for_errors_needs_keys_at_examples :
  (∃ key,
     SyncAPI.send_messages (H:=ascii_builtins) example_api (PStr "u1")
       [text_message_state "hello"] PNone false (always (Response 200 (Returns (PDict ∅)))) []
     = (Raises (Exc KeyError (PStr key)),
        [request_for example_api (PStr "u1") [hello_serialized] PNone false]))
  ∧ (∃ key,
     AsyncAPI.send_messages (H:=ascii_builtins) example_api (PStr "u1")
       [text_message_state "hello"] PNone false
       (always (Response 200 (Returns (PDict
          {[ "status" := PStr "error"; "error" := PStr "spam_block" ]})))) []
     = (Raises (Exc KeyError (PStr key)),
        [request_for example_api (PStr "u1") [hello_serialized] PNone false])).
Proof.
  destruct (check_for_errors_needs_keys (builtins:=ascii_builtins))
    as (_ & Hraw & Hempty & Hnomsg).
  split.
  - destruct (Hraw ∅ example_api (PStr "u1") [text_message_state "hello"]
                [hello_serialized] PNone false
                (always (Response 200 (Returns (PDict ∅)))) [] Hempty eq_refl eq_refl)
      as (key & _ & _ & _ & Hsync & _).
    exists key. apply Hsync. discriminate.
  - destruct (Hraw _ example_api (PStr "u1") [text_message_state "hello"]
                [hello_serialized] PNone false
                (always (Response 200 (Returns (PDict
                   {[ "status" := PStr "error"; "error" := PStr "spam_block" ]})))) []
                Hnomsg eq_refl eq_refl)
      as (key & _ & _ & _ & _ & Hasync).
    exists key. exact Hasync.
Defined.

(** * Further properties of the code *)

(** ** Serializing messages *)

Lemma class_lookup_type (c : class) : is_Some (class_lookup (mro c) "type").
Proof. destruct c; by eexists. Qed.

Lemma class_lookup_mime (c : class) : is_Some (class_lookup (mro c) "mime").
Proof. destruct c; by eexists. Qed.

Lemma class_lookup_data (c : class) : class_lookup (mro c) "data" = None.
Proof. by destruct c. Qed.

Lemma getattr_type (self : object) : ∃ v, getattr self "type" = Returns v.
Proof.
  unfold getattr. destruct (ob_dict self !! "type"); [by eexists|].
  destruct (class_lookup_type (ob_class self)) as [v ->]. by eexists.
Qed.

Lemma getattr_mime (self : object) : ∃ v, getattr self "mime" = Returns v.
Proof.
  unfold getattr. destruct (ob_dict self !! "mime"); [by eexists|].
  destruct (class_lookup_mime (ob_class self)) as [v ->]. by eexists.
Qed.

Lemma serialize_with_data (self : object) (v : pyval) :
  ob_dict self !! "data" = Some v →
  ∃ type mime, getattr self "type" = Returns type ∧ getattr self "mime" = Returns mime
    ∧ MessageBase.serialize self =
        Returns (PDict {[ "type" := type; "mime" := mime; "data" := v ]}).
Proof.
  intros Hdata.
  destruct (getattr_type self) as [type Ht], (getattr_mime self) as [mime Hm].
  exists type, mime. split; [done|]. split; [done|].
  unfold MessageBase.serialize. rewrite Ht, Hm.
  unfold getattr. by rewrite Hdata.
Qed.

Lemma serialize_without_data (self : object) :
  ob_dict self !! "data" = None →
  MessageBase.serialize self = Raises (no_data self).
Proof.
  intros Hdata.
  destruct (getattr_type self) as [type Ht], (getattr_mime self) as [mime Hm].
  unfold MessageBase.serialize. rewrite Ht, Hm.
  unfold getattr. by rewrite Hdata, class_lookup_data.
Qed.

Lemma mapM_cons_returns (m : object) (messages : list object) (j : pyval) (js : list pyval) :
  MessageBase.serialize m = Returns j →
  mapM MessageBase.serialize messages = Returns js →
  mapM MessageBase.serialize (m :: messages) = Returns (j :: js).
Proof. intros Hj Hjs. simpl. by rewrite Hj, Hjs. Qed.

Lemma mapM_cons_inv (m : object) (messages : list object) (js : list pyval) :
  mapM MessageBase.serialize (m :: messages) = Returns js →
  ∃ j js', js = j :: js' ∧ MessageBase.serialize m = Returns j
           ∧ mapM MessageBase.serialize messages = Returns js'.
Proof.
  simpl. destruct (MessageBase.serialize m) as [j|e]; [|done].
  destruct (mapM MessageBase.serialize messages) as [js'|e]; [|done].
  intros [= <-]. by exists j, js'.
Qed.

(** X1.  A list of messages serializes exactly when every message has a
    [data] attribute of its own; the result then holds one entry per
    message, the i-th being the serialization of the i-th message. *)
Theorem serialize_all_iff_data (messages : list object) :
  ((∀ m, m ∈ messages → is_Some (ob_dict m !! "data"))
   ↔ ∃ js, mapM MessageBase.serialize messages = Returns js)
  ∧ ∀ js, mapM MessageBase.serialize messages = Returns js →
      length js = length messages
      ∧ ∀ i m, messages !! i = Some m →
          ∃ j, js !! i = Some j ∧ MessageBase.serialize m = Returns j.
Proof.
  split; [split|].
  - induction messages as [|m messages IH]; intros Hdata; [by exists []|].
    destruct (Hdata m) as [v Hv]; [by left|].
    destruct (serialize_with_data m v Hv) as (type & mime & _ & _ & Hm).
    destruct IH as [js Hjs]; [intros m' ?; apply Hdata; by right|].
    eexists. by apply mapM_cons_returns.
  - intros [js Hjs]. revert js Hjs.
    induction messages as [|m messages IH]; intros js Hjs m' Hin.
    { by apply elem_of_nil in Hin. }
    apply mapM_cons_inv in Hjs as (j & js' & -> & Hj & Hjs').
    apply elem_of_cons in Hin as [->|Hin]; [|by apply (IH js')].
    destruct (ob_dict m !! "data") eqn:Hdata; [done|].
    by rewrite serialize_without_data in Hj.
  - induction messages as [|m messages IH]; intros js Hjs.
    { injection Hjs as <-. by split; [|intros i m [=]]. }
    apply mapM_cons_inv in Hjs as (j & js' & -> & Hj & Hjs').
    destruct (IH js' Hjs') as [Hlen Hith]. split; [simpl; by rewrite Hlen|].
    intros [|i] m' Hm'; simpl in *; [|by apply Hith].
    injection Hm' as <-. by exists j.
Qed.

Lemma mapM_first_without_data (pre : list object) (m : object) (post : list object) :
  (∀ m', m' ∈ pre → is_Some (ob_dict m' !! "data")) →
  ob_dict m !! "data" = None →
  mapM MessageBase.serialize (pre ++ m :: post) = Raises (no_data m).
Proof.
  intros Hpre Hm. induction pre as [|m' pre IH]; simpl.
  - by rewrite serialize_without_data.
  - destruct (Hpre m') as [v Hv]; [by left|].
    destruct (serialize_with_data m' v Hv) as (type & mime & _ & _ & ->).
    rewrite IH; [done|]. intros m'' ?. apply Hpre. by right.
Qed.

(** ** Sending, continued *)

Section sending.
Context {builtins : Builtins}.

(** X2.  When a message of the list has no [data] attribute, both
    variants raise the [AttributeError] of the first such message and post
    nothing. *)
Theorem send_messages_message_without_data self client_id
    (pre : list object) (m : object) (post : list object) metadata via_crm
    (srv : transport) (log : list request) :
  (∀ m', m' ∈ pre → is_Some (ob_dict m' !! "data")) →
  ob_dict m !! "data" = None →
  SyncAPI.send_messages self client_id (pre ++ m :: post) metadata via_crm srv log
    = (Raises (no_data m), log)
  ∧ AsyncAPI.send_messages self client_id (pre ++ m :: post) metadata via_crm srv log
    = (Raises (no_data m), log).
Proof.
  intros Hpre Hm. apply send_messages_serialize_raises.
  by apply mapM_first_without_data.
Qed.

(** X3.  A call posts at most one request and leaves the earlier log as
    it was: either nothing is posted, or the messages serialized and the
    one request built from them is appended. *)
Theorem send_messages_posts_at_most_once self client_id messages metadata via_crm
    (srv : transport) (log : list request) :
  let one_or_none (run : result unit * list request) :=
    run.2 = log
    ∨ ∃ js, mapM MessageBase.serialize messages = Returns js
            ∧ run.2 = (log ++ [request_for self client_id js metadata via_crm])%list in
  one_or_none (SyncAPI.send_messages self client_id messages metadata via_crm srv log)
  ∧ one_or_none (AsyncAPI.send_messages self client_id messages metadata via_crm srv log).
Proof.
  intros one_or_none. unfold one_or_none.
  destruct (mapM MessageBase.serialize messages) as [js|e] eqn:Hser.
  - split.
    + destruct messages as [|m messages]; [by left|]. right. exists js.
      by rewrite (sync_send_messages_run _ _ _ js).
    + right. exists js. by rewrite (async_send_messages_run _ _ _ js).
  - destruct (send_messages_serialize_raises self client_id messages e
                metadata via_crm srv log Hser) as [-> ->]. split; by left.
Qed.

(** X4.  HTTP 200 with a body that is not JSON: what [resp.json()] raises
    propagates unchanged from both variants, after the one POST. *)
Theorem send_messages_body_not_json self client_id messages serialized metadata via_crm
    (srv : transport) (log : list request) (e : exn) :
  mapM MessageBase.serialize messages = Returns serialized →
  srv (request_for self client_id serialized metadata via_crm) = Response 200 (Raises e) →
  let posted := (log ++ [request_for self client_id serialized metadata via_crm])%list in
  (messages ≠ [] →
   SyncAPI.send_messages self client_id messages metadata via_crm srv log = (Raises e, posted))
  ∧ AsyncAPI.send_messages self client_id messages metadata via_crm srv log = (Raises e, posted).
Proof.
  intros Hser Hsrv. apply send_messages_run; [done|]. by rewrite Hsrv.
Qed.

Lemma check_not_object (answer : pyval) :
  (∀ d, answer ≠ PDict d) →
  ∃ msg, SyncAPI._check_for_errors answer = Raises (Exc TypeError (PStr msg)).
Proof.
  intros Hobj. destruct answer as [| | | | |d]; try by eexists.
  by destruct (Hobj d).
Qed.

(** X5.  HTTP 200 with a JSON body that is not an object (null, a
    boolean, a number, a string or an array): the subscript [answer['status']]
    raises [TypeError], which both variants let through. *)
Theorem send_messages_body_not_object self client_id messages serialized metadata via_crm
    (srv : transport) (log : list request) (answer : pyval) :
  mapM MessageBase.serialize messages = Returns serialized →
  srv (request_for self client_id serialized metadata via_crm) = Response 200 (Returns answer) →
  (∀ d, answer ≠ PDict d) →
  ∃ msg,
    let posted := (log ++ [request_for self client_id serialized metadata via_crm])%list in
    let failure := Raises (Exc TypeError (PStr msg)) in
    (messages ≠ [] →
     SyncAPI.send_messages self client_id messages metadata via_crm srv log = (failure, posted))
    ∧ AsyncAPI.send_messages self client_id messages metadata via_crm srv log = (failure, posted).
Proof.
  intros Hser Hsrv Hobj. destruct (check_not_object answer Hobj) as [msg Hmsg].
  exists msg. apply send_messages_run; [done|].
  by rewrite Hsrv, response_outcome_200.
Qed.

(** X6.  The response check reads the body only at [status], [error] and
    [message]: two bodies that agree on these three keys get the same
    outcome, whatever else they hold. *)
Theorem check_for_errors_reads_three_keys (d d' : gmap string pyval) :
  d !! "status" = d' !! "status" →
  d !! "error" = d' !! "error" →
  d !! "message" = d' !! "message" →
  SyncAPI._check_for_errors (PDict d) = SyncAPI._check_for_errors (PDict d').
Proof.
  intros Hst Her Hmsg. unfold SyncAPI._check_for_errors. simpl py_getitem.
  by rewrite Hst, Her, Hmsg.
Qed.

(** X8.  What is posted, for messages that serialize: the URL is
    [api_url] followed by [/integrations/webhook], or by
    [/integrations/crm/webhook] when [via_crm] is true; the timeout is the
    client's; the JSON body has exactly the keys [api_key], [chatbot_uuid],
    [client_id], [messages], [webhook] and [metadata], holding the client's
    configuration, the caller's [client_id], the serialized messages, and
    the caller's [metadata], replaced by [{}] only when it is [None]. *)
Theorem send_messages_posted_request (self : SyncAPI.t) (client_id : pyval)
    (messages : list object) (js : list pyval) (metadata : pyval) (via_crm : bool)
    (srv : transport) (log : list request) :
  mapM MessageBase.serialize messages = Returns js →
  ∃ body,
    let req :=
      Request
        (SyncAPI.api_url self +:+
           (if via_crm then "/integrations/crm/webhook" else "/integrations/webhook"))
        (SyncAPI.timeout self) (PDict body) in
    (AsyncAPI.send_messages self client_id messages metadata via_crm srv log).2
      = (log ++ [req])%list
    ∧ (messages ≠ [] →
       (SyncAPI.send_messages self client_id messages metadata via_crm srv log).2
         = (log ++ [req])%list)
    ∧ dom body =
        {[ "api_key"; "chatbot_uuid"; "client_id"; "messages"; "webhook"; "metadata" ]}
    ∧ body !! "api_key" = Some (SyncAPI.api_key self)
    ∧ body !! "chatbot_uuid" = Some (SyncAPI.chatbot_uuid self)
    ∧ body !! "client_id" = Some client_id
    ∧ body !! "messages" = Some (PList js)
    ∧ body !! "webhook" = Some (SyncAPI.webhook self)
    ∧ (metadata = PNone → body !! "metadata" = Some (PDict ∅))
    ∧ (metadata ≠ PNone → body !! "metadata" = Some metadata).
Proof.
  intros Hser. eexists. cbv zeta.
  rewrite (async_send_messages_run _ _ _ js) by done.
  split; [|split; [|split]].
  - unfold request_for. simpl. by destruct via_crm.
  - intros Hne. rewrite (sync_send_messages_run _ _ _ js) by done.
    unfold request_for. simpl. by destruct via_crm.
  - rewrite !dom_insert_L, dom_singleton_L. set_solver.
  - repeat split; try done.
    + by intros ->.
    + intros Hmd. by destruct metadata.
Qed.

(** X7.  For an error code of the table other than [bad_request], the
    failure carries the value under [message] as it is, whatever its JSON
    type (a string, null, a number, an object). *)
Theorem send_messages_carries_message_value self client_id messages serialized
    metadata via_crm (srv : transport) (log : list request) (d : gmap string pyval)
    (code : string) (kind : exc_class) (message : pyval) :
  mapM MessageBase.serialize messages = Returns serialized →
  srv (request_for self client_id serialized metadata via_crm) = Response 200 (Returns (PDict d)) →
  d !! "status" = Some (PStr "error") →
  d !! "error" = Some (PStr code) →
  d !! "message" = Some message →
  (code, kind) ∈ spec_error_table →
  kind ≠ BadRequest →
  let posted := (log ++ [request_for self client_id serialized metadata via_crm])%list in
  (messages ≠ [] →
   SyncAPI.send_messages self client_id messages metadata via_crm srv log
     = (Raises (Exc kind message), posted))
  ∧ AsyncAPI.send_messages self client_id messages metadata via_crm srv log
     = (Raises (Exc kind message), posted).
Proof.
  intros Hser Hsrv Hst Her Hmsg Hin Hkind. apply send_messages_run; [done|].
  rewrite Hsrv, response_outcome_200, (check_mapped d code kind message) by done.
  unfold carried. by rewrite decide_False.
Qed.

End sending.

(** ** Parsing a webhook body, continued *)

(** X9.  [parse_reply] returns a reply exactly for a JSON object whose
    [answer] is an object with [text], [fbmd] and [mdv2] and that has
    [chatbot_uuid] and [client_id]; the reply then holds those values, and
    [metadata] or [None]. *)
Theorem parse_reply_returns_iff (v : pyval) (reply : ReplyMessage.t) :
  SyncAPI.parse_reply v = Returns reply
  ↔ ∃ d a,
      v = PDict d ∧ d !! "answer" = Some (PDict a)
      ∧ a !! "text" = Some (ReplyMessage.text reply)
      ∧ a !! "fbmd" = Some (ReplyMessage.text_markdown reply)
      ∧ a !! "mdv2" = Some (ReplyMessage.text_markdown_v2 reply)
      ∧ d !! "chatbot_uuid" = Some (ReplyMessage.chatbot_uuid reply)
      ∧ d !! "client_id" = Some (ReplyMessage.client_id reply)
      ∧ ReplyMessage.metadata reply = default PNone (d !! "metadata").
Proof.
  split.
  - unfold SyncAPI.parse_reply, ReplyMessage.deserialize.
    destruct v as [| | | | |d]; try done. simpl.
    destruct (d !! "answer") as [[| | | | |a]|] eqn:Ha; try done. simpl.
    destruct (a !! "text") as [text|] eqn:Ht; [simpl|done].
    destruct (a !! "fbmd") as [fbmd|] eqn:Hf; [simpl|done].
    destruct (a !! "mdv2") as [mdv2|] eqn:Hm; [simpl|done].
    destruct (d !! "chatbot_uuid") as [chatbot_uuid|] eqn:Hu; [simpl|done].
    destruct (d !! "client_id") as [client_id|] eqn:Hc; [simpl|done].
    intros [= <-]. by exists d, a.
  - intros (d & a & -> & Ha & Ht & Hf & Hm & Hu & Hc & Hmd).
    rewrite (parse_reply_complete d a _ _ _ _ _ Ha Ht Hf Hm Hu Hc), <- Hmd.
    by destruct reply.
Qed.

(** X10.  Whatever JSON value it is given, [parse_reply] fails only in
    two ways: with [BadResponse], or with the [TypeError] of a subscript on
    a value that is not an object (the body itself, or its [answer]).  No
    [KeyError] leaves it. *)
Theorem parse_reply_failures (v : pyval) (e : exn) :
  SyncAPI.parse_reply v = Raises e →
  e = bad_response
  ∨ (exc_cls e = TypeError
     ∧ ((∀ d, v ≠ PDict d)
        ∨ ∃ d x, v = PDict d ∧ d !! "answer" = Some x ∧ ∀ a, x ≠ PDict a)).
Proof.
  unfold SyncAPI.parse_reply, ReplyMessage.deserialize.
  destruct v as [| | | | |d]; simpl;
    try (intros [= <-]; right; split; [done|]; by left).
  destruct (d !! "answer") as [x|] eqn:Ha; [|intros [= <-]; by left].
  destruct x as [| | | | |a]; simpl;
    try (intros [= <-]; right; split; [done|]; right; by eexists d, _).
  destruct (a !! "text") as [text|]; [simpl|intros [= <-]; by left].
  destruct (a !! "fbmd") as [fbmd|]; [simpl|intros [= <-]; by left].
  destruct (a !! "mdv2") as [mdv2|]; [simpl|intros [= <-]; by left].
  destruct (d !! "chatbot_uuid") as [chatbot_uuid|]; [simpl|intros [= <-]; by left].
  destruct (d !! "client_id") as [client_id|]; [simpl|intros [= <-]; by left].
  done.
Qed.

(** X11.  Keys of the body other than [answer], [chatbot_uuid],
    [client_id] and [metadata] are ignored by [parse_reply]. *)
Theorem parse_reply_ignores_other_keys (d : gmap string pyval) (key : string) (x : pyval) :
  key ∉ ["answer"; "chatbot_uuid"; "client_id"; "metadata"] →
  SyncAPI.parse_reply (PDict (<[key := x]> d)) = SyncAPI.parse_reply (PDict d).
Proof.
  intros Hkey. unfold SyncAPI.parse_reply, ReplyMessage.deserialize. simpl.
  rewrite !lookup_insert_ne; [done|..]; intros ->; apply Hkey;
    rewrite !elem_of_cons; tauto.
Qed.

(** ** Stored messages *)

(** X12.  A stored message survives serialization and deserialization
    unchanged, whatever its role and text are. *)
Theorem StoredMessage_roundtrip (m : StoredMessage.t) :
  StoredMessage.deserialize (StoredMessage.serialize m) = Returns m.
Proof. by destruct m. Qed.

(** X13.  Deserializing a JSON object that has [role] and [text] and
    serializing the result keeps exactly these two entries of the object:
    every other key is dropped. *)
Theorem StoredMessage_reserialize (d : gmap string pyval) (m : StoredMessage.t) :
  StoredMessage.deserialize (PDict d) = Returns m →
  StoredMessage.serialize m =
    PDict (filter (λ kv, kv.1 = "role" ∨ kv.1 = "text") d).
Proof.
  unfold StoredMessage.deserialize. simpl.
  destruct (d !! "role") as [role|] eqn:Hr; [simpl|done].
  destruct (d !! "text") as [text|] eqn:Ht; [simpl|done].
  intros [= <-]. unfold StoredMessage.serialize. simpl. f_equal.
  apply map_eq. intros key. apply option_eq. intros y.
  rewrite map_lookup_filter_Some. simpl.
  destruct (decide (key = "role")) as [->|Hnr].
  { rewrite lookup_insert_eq, Hr.
    split; [intros ?; split; [done|by left] | by intros [? _]]. }
  destruct (decide (key = "text")) as [->|Hnt].
  { rewrite lookup_insert_ne, lookup_singleton_eq, Ht by done.
    split; [intros ?; split; [done|by right] | by intros [? _]]. }
  rewrite lookup_insert_ne, lookup_singleton_ne by done.
  split; [done | by intros [_ [?|?]]].
Qed.

(** X14.  [StoredMessage.deserialize] converts no error: on an object
    without [role] it raises [KeyError('role')], on one with [role] but
    without [text] it raises [KeyError('text')], and on a JSON value that is
    not an object it raises [TypeError]. *)
Theorem StoredMessage_deserialize_errors :
  (∀ d : gmap string pyval, d !! "role" = None →
     StoredMessage.deserialize (PDict d) = Raises (Exc KeyError (PStr "role")))
  ∧ (∀ d : gmap string pyval, is_Some (d !! "role") → d !! "text" = None →
     StoredMessage.deserialize (PDict d) = Raises (Exc KeyError (PStr "text")))
  ∧ (∀ v : pyval, (∀ d, v ≠ PDict d) →
     ∃ msg, StoredMessage.deserialize v = Raises (Exc TypeError (PStr msg))).
Proof.
  unfold StoredMessage.deserialize. split; [|split].
  - intros d Hr. simpl. by rewrite Hr.
  - intros d [role Hr] Ht. simpl. by rewrite Hr, Ht.
  - intros v Hobj. destruct v as [| | | | |d]; try by eexists.
    by destruct (Hobj d).
Qed.

(** ** The message classes *)

Local Ltac allowed_by c :=
  solve [eexists c, _; split; [reflexivity | repeat constructor]].

(** X15.  The two tables of mimetypes agree: every mimetype a message
    class allows has an entry in [MIME_TYPES], and every entry of
    [MIME_TYPES] is allowed by some message class. *)
Theorem allowed_mimetypes_are_MIME_TYPES :
  (∀ c allowed m, class_dict c !! "mime" = Some (PList allowed) →
     PStr m ∈ allowed → is_Some (MIME_TYPES !! m))
  ∧ (∀ m, is_Some (MIME_TYPES !! m) →
     ∃ c allowed, class_dict c !! "mime" = Some (PList allowed) ∧ PStr m ∈ allowed).
Proof.
  split.
  - intros c allowed m Hc Hin.
    destruct c; vm_compute in Hc; injection Hc as <-;
      repeat (apply elem_of_cons in Hin as [[= ->]|Hin]; [by eexists|]);
      by apply elem_of_nil in Hin.
  - intros m Hm. apply elem_of_dom in Hm. unfold MIME_TYPES in Hm.
    rewrite dom_list_to_map_L, elem_of_list_to_set in Hm. simpl in Hm.
    repeat (apply elem_of_cons in Hm as [->|Hm];
      [first [allowed_by ImageMessage | allowed_by StickerMessage
             | allowed_by VideoMessage | allowed_by AudioMessage
             | allowed_by DocumentMessage]|]).
    by apply elem_of_nil in Hm.
Qed.

Lemma serialize_type_of_class (self : object) (d : gmap string pyval) :
  ob_dict self !! "type" = None →
  MessageBase.serialize self = Returns (PDict d) →
  d !! "type" = class_lookup (mro (ob_class self)) "type".
Proof.
  intros Hnone.
  assert (∃ type, class_lookup (mro (ob_class self)) "type" = Some type
                  ∧ getattr self "type" = Returns type) as (type & -> & Ht).
  { unfold getattr. rewrite Hnone.
    destruct (class_lookup_type (ob_class self)) as [type ->]. by exists type. }
  unfold MessageBase.serialize. rewrite Ht. simpl.
  destruct (getattr self "mime"); [simpl|done].
  destruct (getattr self "data"); [simpl|done].
  intros [= <-]. by rewrite lookup_insert_eq.
Qed.

(** X16.  The [type] entry of a serialized message tells its class: two
    instances that do not override [type] and serialize with the same
    [type] entry are of the same class. *)
Theorem serialized_type_identifies_class (o1 o2 : object) (d1 d2 : gmap string pyval) :
  ob_dict o1 !! "type" = None → ob_dict o2 !! "type" = None →
  MessageBase.serialize o1 = Returns (PDict d1) →
  MessageBase.serialize o2 = Returns (PDict d2) →
  d1 !! "type" = d2 !! "type" →
  ob_class o1 = ob_class o2.
Proof.
  intros H1 H2 Hs1 Hs2.
  rewrite (serialize_type_of_class o1 d1), (serialize_type_of_class o2 d2) by done.
  by destruct (ob_class o1), (ob_class o2).
Qed.

Lemma existsb_py_eq_str (s : string) (l : list pyval) :
  existsb (λ v, py_eq_str v s) l = true ↔ PStr s ∈ l.
Proof.
  induction l as [|v l IH]; simpl.
  - split; [done|]. by intros ?%elem_of_nil.
  - rewrite orb_true_iff, IH, elem_of_cons. split.
    + intros [Hv|?]; [left|by right].
      destruct v; simpl in Hv; try done. by apply bool_decide_eq_true in Hv as ->.
    + intros [<-|?]; [left; apply py_eq_str_refl|by right].
Qed.

Section construction.
Context {builtins : Builtins}.

(** X17.  On an instance that already has a [mimetypes] attribute
    holding a list (no instance the module's classes make has one),
    [MessageBase.__init__] returns exactly when the lower-cased [mime] is
    an element of that list, having stored [data] and [mime] as given (the
    mime not lower-cased); otherwise it raises [InvalidMimeType]. *)
Theorem MessageBase_init_with_mimetypes (self : object) (data : pyval) (m : string)
    (allowed : list pyval) :
  ob_dict self !! "mimetypes" = Some (PList allowed) →
  (PStr (str_lower m) ∈ allowed →
   MessageBase.__init__ self data (PStr m) =
     Returns (setattr (setattr self "data" data) "mime" (PStr m)))
  ∧ (PStr (str_lower m) ∉ allowed →
     MessageBase.__init__ self data (PStr m) =
       Raises (Exc InvalidMimeType (PStr "Bad message content mimetype."))).
Proof.
  intros Hattr.
  assert (MessageBase.__init__ self data (PStr m) =
    if negb (existsb (λ v, py_eq_str v (str_lower m)) allowed)
    then Raises (Exc InvalidMimeType (PStr "Bad message content mimetype."))
    else Returns (setattr (setattr self "data" data) "mime" (PStr m))) as ->.
  { unfold MessageBase.__init__, getattr. simpl.
    by rewrite !lookup_insert_ne, Hattr. }
  split; intros Hin.
  - apply existsb_py_eq_str in Hin. by rewrite Hin.
  - destruct (existsb _ allowed) eqn:Hex; [|done].
    by apply existsb_py_eq_str in Hex.
Qed.

End construction.

(** ** The client as a context manager *)

(** X18.  Used in a [with] (or [async with]) statement, the client hands
    itself to the block and never suppresses what the block raises: the
    statement returns when the block returns and raises what the block
    raises, with the requests the block posted. *)
Theorem client_context_is_transparent {A : Type} (self : SyncAPI.t)
    (body : SyncAPI.t → io A) (srv : transport) (log : list request) :
  with_stmt (SyncAPI.__enter__ self) (SyncAPI.__exit__ self) body srv log =
    ((body self srv log).1 ≫= λ a, Returns (Some a), (body self srv log).2)
  ∧ with_stmt (AsyncAPI.__aenter__ self) (AsyncAPI.__aexit__ self) body srv log =
    ((body self srv log).1 ≫= λ a, Returns (Some a), (body self srv log).2).
Proof.
  unfold with_stmt, SyncAPI.__enter__, AsyncAPI.__aenter__.
  by destruct (body self srv log) as [[a|e] log'].
Qed.

(** * The further properties at concrete inputs *)


Lemma hello_has_data :
  ∀ m' : object, m' ∈ [text_message_state "hello"] → is_Some (ob_dict m' !! "data").
Proof.
  intros m' Hin. apply list_elem_of_singleton in Hin. subst m'. by eexists.
Defined.

Lemma send_messages_message_without_data_at_image :
  let messages := [text_message_state "hello"; Object ImageMessage ∅] in
  let failure :=
    Raises (Exc AttributeError (PStr "'ImageMessage' object has no attribute 'data'")) in
  SyncAPI.send_messages (H:=ascii_builtins) example_api (PStr "u1") messages PNone false
    (always (Response 200 (Returns (PDict success_body)))) [] = (failure, [])
  ∧ AsyncAPI.send_messages (H:=ascii_builtins) example_api (PStr "u1") messages PNone false
    (always (Response 200 (Returns (PDict success_body)))) [] = (failure, []).
Proof.
  exact (send_messages_message_without_data (builtins:=ascii_builtins) example_api
           (PStr "u1") [text_message_state "hello"] (Object ImageMessage ∅) []
           PNone false _ [] hello_has_data eq_refl).
Defined.

Lemma send_messages_body_not_json_at_hello :
  let srv := always (Response 200 not_json) in
  let posted := [request_for example_api (PStr "u1") [hello_serialized] PNone false] in
  let failure :=
    Raises (Exc JSONDecodeError (PStr "Expecting value: line 1 column 1 (char 0)")) in
  SyncAPI.send_messages (H:=ascii_builtins) example_api (PStr "u1")
    [text_message_state "hello"] PNone false srv [] = (failure, posted)
  ∧ AsyncAPI.send_messages (H:=ascii_builtins) example_api (PStr "u1")
    [text_message_state "hello"] PNone false srv [] = (failure, posted).
Proof.
  intros srv posted failure.
  destruct (send_messages_body_not_json (builtins:=ascii_builtins) example_api (PStr "u1")
              [text_message_state "hello"] [hello_serialized] PNone false srv [] _
              eq_refl eq_refl) as [Hsync Hasync].
  split; [apply Hsync; discriminate | exact Hasync].
Defined.

Lemma list_is_not_object : ∀ d : gmap string pyval, PList [] ≠ PDict d.
Proof. intros d. discriminate. Defined.

Lemma send_messages_body_not_object_at_list :
  ∃ msg,
    AsyncAPI.send_messages (H:=ascii_builtins) example_api (PStr "u1")
      [text_message_state "hello"] PNone false
      (always (Response 200 (Returns (PList [])))) []
    = (Raises (Exc TypeError (PStr msg)),
       [request_for example_api (PStr "u1") [hello_serialized] PNone false]).
Proof.
  destruct (send_messages_body_not_object (builtins:=ascii_builtins) example_api
              (PStr "u1") [text_message_state "hello"] [hello_serialized] PNone false
              (always (Response 200 (Returns (PList [])))) [] (PList [])
              eq_refl eq_refl list_is_not_object) as (msg & _ & Hasync).
  exists msg. exact Hasync.
Defined.

Lemma check_for_errors_reads_three_keys_at_success :
  SyncAPI._check_for_errors (H:=ascii_builtins) (PDict success_body) =
  SyncAPI._check_for_errors (H:=ascii_builtins)
    (PDict (<["request_id" := PInt 7]> success_body)).
Proof.
  apply (check_for_errors_reads_three_keys (builtins:=ascii_builtins));
    reflexivity.
Defined.

Lemma no_reply_in_table : ("no_reply", NoReply) ∈ spec_error_table.
Proof. unfold spec_error_table. rewrite !elem_of_cons. tauto. Defined.

Lemma send_messages_carries_message_value_at_null :
  let body : gmap string pyval :=
    {[ "status" := PStr "error"; "error" := PStr "no_reply"; "message" := PNone ]} in
  let srv := always (Response 200 (Returns (PDict body))) in
  let posted := [request_for example_api (PStr "u1") [hello_serialized] PNone false] in
  SyncAPI.send_messages (H:=ascii_builtins) example_api (PStr "u1")
    [text_message_state "hello"] PNone false srv [] = (Raises (Exc NoReply PNone), posted)
  ∧ AsyncAPI.send_messages (H:=ascii_builtins) example_api (PStr "u1")
    [text_message_state "hello"] PNone false srv [] = (Raises (Exc NoReply PNone), posted).
Proof.
  intros body srv posted.
  destruct (send_messages_carries_message_value (builtins:=ascii_builtins) example_api
              (PStr "u1") [text_message_state "hello"] [hello_serialized] PNone false
              srv [] body "no_reply" NoReply PNone
              eq_refl eq_refl eq_refl eq_refl eq_refl no_reply_in_table)
    as [Hsync Hasync]; [discriminate|].
  split; [apply Hsync; discriminate | exact Hasync].
Defined.

Lemma send_messages_posted_request_at_hello :
  ∃ body,
    (AsyncAPI.send_messages (H:=ascii_builtins) example_api (PStr "u1")
       [text_message_state "hello"] PNone true
       (always (Response 200 (Returns (PDict success_body)))) []).2
    = [Request "https://bigduck.ai/integrations/crm/webhook" 240%Q (PDict body)]
    ∧ body !! "messages" = Some (PList [hello_serialized])
    ∧ body !! "metadata" = Some (PDict ∅).
Proof.
  destruct (send_messages_posted_request (builtins:=ascii_builtins) example_api
              (PStr "u1") [text_message_state "hello"] [hello_serialized] PNone true
              (always (Response 200 (Returns (PDict success_body)))) [] eq_refl)
    as (body & Hasync & _ & _ & _ & _ & _ & Hmsgs & _ & Hnone & _).
  exists body. split; [exact Hasync|]. split; [exact Hmsgs|]. by apply Hnone.
Defined.

Lemma parse_reply_failures_at_list :
  SyncAPI.parse_reply (PList []) =
    Raises (Exc TypeError (PStr "list indices must be integers or slices, not str"))
  ∧ (Exc TypeError (PStr "list indices must be integers or slices, not str") = bad_response
     ∨ TypeError = TypeError
       ∧ ((∀ d, PList [] ≠ PDict d)
          ∨ ∃ d x, PList [] = PDict d ∧ d !! "answer" = Some x ∧ ∀ a, x ≠ PDict a)).
Proof.
  split; [reflexivity|].
  exact (parse_reply_failures (PList []) _ eq_refl).
Defined.

Lemma request_id_is_other_key :
  "request_id" ∉ ["answer"; "chatbot_uuid"; "client_id"; "metadata"].
Proof. rewrite !elem_of_cons, elem_of_nil. intros [?|[?|[?|[?|[]]]]]; discriminate. Defined.

Lemma parse_reply_ignores_other_keys_at_reply :
  SyncAPI.parse_reply (PDict (<["request_id" := PInt 7]> reply_body)) =
  SyncAPI.parse_reply (PDict reply_body).
Proof.
  exact (parse_reply_ignores_other_keys reply_body "request_id" (PInt 7)
           request_id_is_other_key).
Defined.

Lemma StoredMessage_reserialize_at_user :
  let d : gmap string pyval :=
    {[ "role" := PStr MessageRole.USER; "text" := PStr "hi"; "id" := PInt 1 ]} in
  StoredMessage.serialize (StoredMessage.__init__ (PStr MessageRole.USER) (PStr "hi")) =
    PDict (filter (λ kv, kv.1 = "role" ∨ kv.1 = "text") d).
Proof.
  intros d.
  exact (StoredMessage_reserialize d
           (StoredMessage.__init__ (PStr MessageRole.USER) (PStr "hi")) eq_refl).
Defined.

Lemma serialized_type_identifies_class_at_voice :
  ob_class (Object VoiceMessage {[ "data" := PStr "https://example.org/a.ogg" ]}) =
  ob_class (Object VoiceMessage {[ "data" := PStr "https://example.org/b.ogg" ]}).
Proof.
  exact (serialized_type_identifies_class
           (Object VoiceMessage {[ "data" := PStr "https://example.org/a.ogg" ]})
           (Object VoiceMessage {[ "data" := PStr "https://example.org/b.ogg" ]})
           _ _ eq_refl eq_refl eq_refl eq_refl eq_refl).
Defined.

Lemma MessageBase_init_with_mimetypes_at_ogg :
  let self := Object VoiceMessage {[ "mimetypes" := PList [PStr "audio/ogg"] ]} in
  MessageBase.__init__ (H:=ascii_builtins) self (PStr "https://example.org/a.ogg")
    (PStr "audio/OGG") =
    Returns (Object VoiceMessage
      {[ "mime" := PStr "audio/OGG"; "data" := PStr "https://example.org/a.ogg";
         "mimetypes" := PList [PStr "audio/ogg"] ]})
  ∧ MessageBase.__init__ (H:=ascii_builtins) self (PStr "https://example.org/a.mp4")
    (PStr "video/mp4") =
    Raises (Exc InvalidMimeType (PStr "Bad message content mimetype.")).
Proof.
  intros self. split.
  - apply (MessageBase_init_with_mimetypes (builtins:=ascii_builtins) self
             (PStr "https://example.org/a.ogg") "audio/OGG" [PStr "audio/ogg"] eq_refl).
    apply list_elem_of_singleton. reflexivity.
  - apply (MessageBase_init_with_mimetypes (builtins:=ascii_builtins) self
             (PStr "https://example.org/a.mp4") "video/mp4" [PStr "audio/ogg"] eq_refl).
    intros Hin. apply list_elem_of_singleton in Hin. discriminate.
Defined.
